(** * CRM API: the request handlers of [main.py] and their aggregates

    The service is a thin layer over a remote record store.  Every handler
    issues one or more requests to the store and shapes the rows that come
    back.  The development below embeds the handlers of [main.py] that count,
    filter, sort or loop; the store itself is a parameter.

    - Column values are dynamically typed, as the rows decoded from the
      store's JSON are: [value] has the scalars a column of these tables
      delivers (null, booleans, integers and text; timestamps arrive as
      text).  Strings are byte strings; on UTF-8 text, byte-wise prefix
      tests and lexicographic comparison agree with Python's.
    - A row is a Python [dict], here a finite map from column names to
      values.
    - A Python exception is an [exn]; code that may raise returns a
      [result].
    - A handler runs in a state-and-exception monad over the store: each
      [.execute()] is one step of the store, recorded in the list of
      requests issued so far. *)

From Stdlib Require Import ZArith String Ascii List Bool Lia Permutation Sorted.
From stdpp Require Import gmap strings pretty sorting.
Import ListNotations.

Local Open Scope Z_scope.
Local Open Scope string_scope.

(** ** Values, rows and exceptions *)

Inductive value : Type :=
| VNone
| VBool (b : bool)
| VInt (n : Z)
| VStr (s : string).

#[global] Instance value_eq_dec : EqDecision value.
Proof. solve_decision. Defined.

Abbreviation row := (gmap string value).

Inductive exn : Type :=
| TypeError
| KeyError (key : string)
| AttributeError
| APIError (message : string).

Inductive result (A : Type) : Type :=
| Ok (a : A)
| Raise (e : exn).

Arguments Ok {A} a.
Arguments Raise {A} e.

Module Res.

Definition bind {A B} (r : result A) (k : A -> result B) : result B :=
  match r with
  | Ok a => k a
  | Raise e => Raise e
  end.

End Res.

Declare Scope result_scope.
Delimit Scope result_scope with result.
Notation "'let?' x ':=' r 'in' k" := (Res.bind r (fun x => k))
  (at level 10, x name, r at level 100, k at level 200) : result_scope.

(** ** Python primitives used by the handlers *)

Module Py.

(** Truth value of an object, as tested by [if], [and], [or]. *)
Definition truthy (v : value) : bool :=
  match v with
  | VNone => false
  | VBool b => b
  | VInt n => negb (n =? 0)%Z
  | VStr s => negb (s =? "")%string
  end.

(** The number a value stands for in a comparison; [bool] is a subtype of
    [int], everything else is not a number. *)
Definition as_number (v : value) : option Z :=
  match v with
  | VInt n => Some n
  | VBool b => Some (Z.b2z b)
  | _ => None
  end.

(** [a >= b].  Ordering is defined between numbers and between strings;
    any other pairing raises [TypeError]. *)
Definition ge (a b : value) : result bool :=
  match a, b with
  | VStr s, VStr t => Ok (String.leb t s)
  | _, _ =>
      match as_number a, as_number b with
      | Some x, Some y => Ok (y <=? x)%Z
      | _, _ => Raise TypeError
      end
  end.

(** [a < b], the only comparison [sorted] makes. *)
Definition lt (a b : value) : result bool :=
  match a, b with
  | VStr s, VStr t => Ok (String.ltb s t)
  | _, _ =>
      match as_number a, as_number b with
      | Some x, Some y => Ok (x <? y)%Z
      | _, _ => Raise TypeError
      end
  end.

(** [a == b] never raises; values of unrelated types are unequal. *)
Definition eq (a b : value) : bool :=
  match a, b with
  | VNone, VNone => true
  | VStr s, VStr t => (s =? t)%string
  | _, _ =>
      match as_number a, as_number b with
      | Some x, Some y => (x =? y)%Z
      | _, _ => false
      end
  end.

(** [str(v)]. *)
Definition str (v : value) : string :=
  match v with
  | VNone => "None"
  | VBool true => "True"
  | VBool false => "False"
  | VInt n => pretty n
  | VStr s => s
  end.

(** [s.startswith(p)]. *)
Definition startswith (s p : string) : bool := String.prefix p s.

(** [d.get(k)] and [d.get(k, default)]. *)
Definition get (d : row) (k : string) : value := default VNone (d !! k).
Definition get_or (d : row) (k : string) (dflt : value) : value :=
  default dflt (d !! k).

(** [d[k]]. *)
Definition item (d : row) (k : string) : result value :=
  match d !! k with
  | Some v => Ok v
  | None => Raise (KeyError k)
  end.

(** [res.data] on the result of a maybe-single lookup: the result is
    [None] when no row matched, and [None] has no attribute [data]. *)
Definition data (res : option row) : result row :=
  match res with
  | Some d => Ok d
  | None => Raise AttributeError
  end.

(** [d or {}] on a dict. *)
Definition or_empty (d : row) : row :=
  if bool_decide (d = ∅) then ∅ else d.

(** [res.data.get(k, default)] on the result of a maybe-single lookup: the
    attribute lookup fails when the result is [None]. *)
Definition get_attr_get (obj : option row) (k : string) (dflt : value)
  : result value :=
  match obj with
  | Some d => Ok (get_or d k dflt)
  | None => Raise AttributeError
  end.

(** The list comprehension [[x for x in l if cond x]]: the condition is
    evaluated on the elements from left to right and the first exception
    ends the comprehension. *)
Fixpoint comprehension {A} (cond : A -> result bool) (l : list A)
  : result (list A) :=
  match l with
  | [] => Ok []
  | x :: l' =>
      (let? keep := cond x in
       let? rest := comprehension cond l' in
       Ok (if keep then x :: rest else rest))%result
  end.

(** [for x in obj] and [len(obj)] on an object that may be [None]. *)
Definition iter {A} (obj : option (list A)) : result (list A) :=
  match obj with
  | Some l => Ok l
  | None => Raise TypeError
  end.

Definition len {A} (obj : option (list A)) : result nat :=
  match obj with
  | Some l => Ok (List.length l)
  | None => Raise TypeError
  end.

End Py.

(** ** [sorted]

    [sorted(l, key=..., reverse=...)] is a built-in: it computes the key of
    every element, orders the elements with [<] on the keys and is stable.
    With [reverse=True] the list is reversed, sorted ascending and reversed
    again, which keeps elements with equal keys in their input order.  The
    ascending pass is written as a stable insertion sort; an exception
    raised by a comparison ends the sort. *)

Module PySort.

Section WithKey.
Context {A : Type} (key : A -> value).

Fixpoint insert (x : A) (l : list A) : result (list A) :=
  match l with
  | [] => Ok [x]
  | y :: l' =>
      (let? below := Py.lt (key y) (key x) in
       if below
       then (let? r := insert x l' in Ok (y :: r))
       else Ok (x :: y :: l'))%result
  end.

Fixpoint sort_asc (l : list A) : result (list A) :=
  match l with
  | [] => Ok []
  | x :: l' => (let? s := sort_asc l' in insert x s)%result
  end.

Definition sorted (reverse : bool) (l : list A) : result (list A) :=
  if reverse
  then (let? s := sort_asc (rev l) in Ok (rev s))%result
  else sort_asc l.

End WithKey.

End PySort.

(** ** The record store

    The handlers reach the store through the query builder
    ([from_(t).select("*").eq(...)...]) and through [rpc(name, params)];
    [.execute()] sends the request.  A request either raises or returns a
    response whose [data] is the rows found, or [None].  A lookup made with
    [maybe_single()] is different: when no row matches, [.execute()] returns
    [None] in place of a response, and otherwise a response whose [data] is
    the row.  [run_single] gives that result: [None] for no match, the row
    for a match. *)

Inductive filter : Type :=
| FEq (column : string) (v : value)
| FGte (column : string) (v : value)
| FLike (column : string) (pattern : string).

Inductive request : Type :=
| Select (table : string) (filters : list filter)
| SelectMaybeSingle (table : string) (filters : list filter)
| Rpc (fn : string) (params : gmap string value).

#[global] Instance filter_eq_dec : EqDecision filter.
Proof. solve_decision. Defined.

#[global] Instance request_eq_dec : EqDecision request.
Proof. solve_decision. Defined.

Record Backend (S : Type) : Type := {
  run : request -> S -> S * result (option (list row));
  run_single : request -> S -> S * result (option row)
}.

Arguments run {S} _ _ _.
Arguments run_single {S} _ _ _.

Record world (S : Type) : Type := {
  store : S;
  issued : list request
}.

Arguments store {S} _.
Arguments issued {S} _.

Definition M (S A : Type) : Type := world S -> world S * result A.

Module Mon.

Definition ret {S A} (a : A) : M S A := fun w => (w, Ok a).

Definition bind {S A B} (m : M S A) (k : A -> M S B) : M S B :=
  fun w =>
    match m w with
    | (w', Ok a) => k a w'
    | (w', Raise e) => (w', Raise e)
    end.

Definition lift {S A} (r : result A) : M S A := fun w => (w, r).

Fixpoint for_each {S A} (l : list A) (body : A -> M S unit) : M S unit :=
  match l with
  | [] => ret tt
  | x :: l' => bind (body x) (fun _ => for_each l' body)
  end.

End Mon.

Declare Scope handler_scope.
Delimit Scope handler_scope with handler.
Notation "'let*' x ':=' m 'in' k" := (Mon.bind m (fun x => k))
  (at level 10, x name, m at level 100, k at level 200) : handler_scope.

(** ** Request and response shapes *)

Record FilterPayload : Type := {
  fp_executive_id : string;
  state : option string;
  category : option string;
  gender : option string;
  status : option string;
  bargain_type : option string;
  min_heat : option Z;
  max_heat : option Z;
  prospect_percent : option Z;
  sort_by : option string
}.

(** The payload built from a request body that carries [executive_id] only:
    every other field takes the default written in the class. *)
Definition FilterPayload_defaults (executive_id : string) : FilterPayload := {|
  fp_executive_id := executive_id;
  state := None;
  category := None;
  gender := None;
  status := None;
  bargain_type := None;
  min_heat := None;
  max_heat := Some 100%Z;
  prospect_percent := None;
  sort_by := None
|}.

Record BulkAssignPayload : Type := {
  assign_from : string;
  assign_to : string;
  candidate_ids : list Z;
  reason : option string
}.

Record Summary : Type := {
  total_assigned : nat;
  hot_leads : nat;
  followups_today : nat;
  fresh : nat;
  bargainers : nat
}.

Record Dashboard : Type := { summary : Summary }.

Record LeadList : Type := {
  ll_executive_id : string;
  lead_count : nat;
  leads : list row
}.

Record Executive : Type := {
  name : value;
  assigned_count : nat
}.

Record ManagerLeads : Type := {
  executive : Executive;
  ml_leads : list row
}.

Record LeadDetail : Type := {
  candidate : row;
  timeline : option (list row);
  offers : option (list row)
}.

Record Assigned : Type := { assigned : nat }.

Record Performance : Type := {
  calls : nat;
  connected : nat;
  not_lifted : nat;
  offers_sent : nat
}.

(** JSON encoding of optional request fields. *)
Definition of_str (o : option string) : value :=
  match o with Some s => VStr s | None => VNone end.

Definition of_int (o : option Z) : value :=
  match o with Some n => VInt n | None => VNone end.

(** ** The handlers *)

Section Handlers.

Context {S : Type} (supabase : Backend S).

(** [datetime.now().strftime("%Y-%m-%d")] as read during the request. *)
Variable today : string.

Local Open Scope handler_scope.

(** [builder.execute()] *)
Definition execute (q : request) : M S (option (list row)) :=
  fun w =>
    let (s', r) := run supabase q (store w) in
    ({| store := s'; issued := (issued w ++ [q])%list |}, r).

(** [builder.maybe_single().execute()] *)
Definition execute_single (q : request) : M S (option row) :=
  fun w =>
    let (s', r) := run_single supabase q (store w) in
    ({| store := s'; issued := (issued w ++ [q])%list |}, r).

(** The sort shared by both lead lists:
    [sorted(leads, key=lambda x: x.get("created_at", ""), reverse=True)] *)
Definition created_at (x : row) : value := Py.get_or x "created_at" (VStr "").

Definition sort_newest (leads : list row) : result (list row) :=
  PySort.sorted created_at true leads.

Definition get_profile (phone : string) : M S row :=
  let* res := execute_single
                (SelectMaybeSingle "db_executives" [FEq "mobile" (VStr phone)]) in
  let* data := Mon.lift (Py.data res) in
  Mon.ret (Py.or_empty data).

Definition is_hot (x : row) : result bool :=
  Py.ge (Py.get_or x "lead_heat_score" (VInt 0)) (VInt 70).

Definition has_status (s : string) (x : row) : result bool :=
  Ok (Py.eq (Py.get x "lead_status") (VStr s)).

Definition follows_up_today (x : row) : result bool :=
  if Py.truthy (Py.get x "follow_up_at")
  then (let? v := Py.item x "follow_up_at" in
        Ok (Py.startswith (Py.str v) today))%result
  else Ok false.

(** The body of [get_dashboard] once the rows are fetched: the part that
    touches no store. *)
Definition dashboard_summary (data : list row) : result Dashboard :=
  (let? hot := Py.comprehension is_hot data in
   let? fresh := Py.comprehension (has_status "fresh") data in
   let? bargaining := Py.comprehension (has_status "bargaining") data in
   let? follow_up_today := Py.comprehension follows_up_today data in
   Ok {| summary := {|
     total_assigned := List.length data;
     hot_leads := List.length hot;
     followups_today := List.length follow_up_today;
     fresh := List.length fresh;
     bargainers := List.length bargaining
   |} |})%result.

Definition dashboard_query (executive_id : string) : request :=
  Select "db_candidates" [FEq "executive_id" (VStr executive_id)].

Definition get_dashboard (executive_id : string) : M S Dashboard :=
  let* result := execute (dashboard_query executive_id) in
  let data := default [] result in
  Mon.lift (dashboard_summary data).

(** The filters [lead_list_get] adds to the query, in the order of the
    three [if] statements. *)
Definition lead_list_query (executive_id : string) (status : option string)
    (heat_min : option Z) (follow_up_due : option string) : request :=
  let query := [FEq "executive_id" (VStr executive_id)] in
  let query :=
    if Py.truthy (of_str status)
    then (query ++ [FEq "lead_status" (of_str status)])%list else query in
  let query :=
    if Py.truthy (of_int heat_min)
    then (query ++ [FGte "lead_heat_score" (of_int heat_min)])%list else query in
  let query :=
    if Py.eq (of_str follow_up_due) (VStr "today")
    then (query ++ [FLike "follow_up_at" (today ++ "%")%string])%list
    else query in
  Select "db_candidates" query.

Definition lead_list_get (executive_id : string) (status : option string)
    (heat_min : option Z) (follow_up_due : option string)
    (sort : option string) : M S LeadList :=
  let* res := execute (lead_list_query executive_id status heat_min follow_up_due) in
  let leads := default [] res in
  let* leads :=
    if Py.eq (of_str sort) (VStr "newest")
    then Mon.lift (sort_newest leads) else Mon.ret leads in
  Mon.ret {| ll_executive_id := executive_id;
             lead_count := List.length leads;
             leads := leads |}.

(** The parameters [lead_list_post] hands to [get_leads_filtered]. *)
Definition filter_params (payload : FilterPayload) : gmap string value :=
  <["p_executive_id" := VStr (fp_executive_id payload)]>
  (<["p_state" := of_str (state payload)]>
  (<["p_category" := of_str (category payload)]>
  (<["p_gender" := of_str (gender payload)]>
  (<["p_status" := of_str (status payload)]>
  (<["p_bargain" := of_str (bargain_type payload)]>
  (<["p_min_heat" := of_int (min_heat payload)]>
  (<["p_max_heat" := of_int (max_heat payload)]> ∅))))))).

Definition lead_list_post (payload : FilterPayload) : M S LeadList :=
  let* rpc := execute (Rpc "get_leads_filtered" (filter_params payload)) in
  let leads := default [] rpc in
  let* leads :=
    if Py.eq (of_str (sort_by payload)) (VStr "newest")
    then Mon.lift (sort_newest leads) else Mon.ret leads in
  Mon.ret {| ll_executive_id := fp_executive_id payload;
             lead_count := List.length leads;
             leads := leads |}.

Definition manager_leads (executive_id : string) : M S ManagerLeads :=
  let* exec_profile :=
    execute_single
      (SelectMaybeSingle "db_executives" [FEq "executive_id" (VStr executive_id)]) in
  let* leads := execute
                  (Select "db_candidates" [FEq "executive_id" (VStr executive_id)]) in
  let* name := Mon.lift (Py.get_attr_get exec_profile "name" (VStr "")) in
  Mon.ret {| executive := {| name := name;
                             assigned_count := List.length (default [] leads) |};
             ml_leads := default [] leads |}.

Definition lead_detail (id : Z) : M S LeadDetail :=
  let* cand := execute_single
                 (SelectMaybeSingle "db_candidates" [FEq "id" (VInt id)]) in
  let* timeline := execute (Rpc "get_timeline" {["p_candidate_id" := VInt id]}) in
  let* offers := execute
                   (Rpc "get_offers_for_candidate" {["p_candidate_id" := VInt id]}) in
  let* data := Mon.lift (Py.data cand) in
  Mon.ret {| candidate := data; timeline := timeline; offers := offers |}.

(** The call the loop of [assign_bulk] makes for one candidate id. *)
Definition assign_lead (payload : BulkAssignPayload) (cid : Z) : request :=
  Rpc "assign_lead"
    (<["p_candidate_id" := VInt cid]>
    (<["p_assign_to" := VStr (assign_to payload)]>
    (<["p_assign_from" := VStr (assign_from payload)]>
    (<["p_reason" := of_str (reason payload)]> ∅)))).

(** One pass through the loop body: the call is made and what it
    returns is dropped. *)
Definition assign_one (payload : BulkAssignPayload) (cid : Z) : M S unit :=
  let* _ := execute (assign_lead payload cid) in
  Mon.ret tt.

Definition assign_bulk (payload : BulkAssignPayload) : M S Assigned :=
  let* _ := Mon.for_each (candidate_ids payload) (assign_one payload) in
  Mon.ret {| assigned := List.length (candidate_ids payload) |}.

Definition has_action (a : string) (c : row) : result bool :=
  (let? v := Py.item c "action_type" in Ok (Py.eq v (VStr a)))%result.

(** The body of [exec_perf] once both responses are in. *)
Definition perf_summary (calls offers : option (list row)) : result Performance :=
  (let? rows := Py.iter calls in
   let? connected := Py.comprehension (has_action "connected") rows in
   let? rows := Py.iter calls in
   let? not_lifted := Py.comprehension (has_action "not_lifted") rows in
   let? n_calls := Py.len calls in
   let? n_offers := Py.len offers in
   Ok {| calls := n_calls;
         connected := List.length connected;
         not_lifted := List.length not_lifted;
         offers_sent := n_offers |})%result.

Definition calls_query (executive_id : string) : request :=
  Select "db_call_logs" [FEq "executive_id" (VStr executive_id)].

Definition offers_query (executive_id : string) : request :=
  Select "db_offers_sent" [FEq "executive_id" (VStr executive_id)].

Definition exec_perf (executive_id : string) : M S Performance :=
  let* calls := execute (calls_query executive_id) in
  let* offers := execute (offers_query executive_id) in
  Mon.lift (perf_summary calls offers).

End Handlers.

Arguments dashboard_summary today data : assert.

(** What either lead list does with the rows once they are fetched. *)
Definition shape_leads (executive_id : string) (sort : option string)
    (rows : list row) : result LeadList :=
  if bool_decide (sort = Some "newest")
  then (let? sorted := sort_newest rows in
        Ok {| ll_executive_id := executive_id;
              lead_count := List.length sorted;
              leads := sorted |})%result
  else Ok {| ll_executive_id := executive_id;
             lead_count := List.length rows;
             leads := rows |}.

(** ** The remaining pass-through routes

    The routes that send one request and hand the answer on.  [timeline] is
    also the name of a field of [LeadDetail], hence the module.  ([log_call]
    sends a nested [details] object and [add_note] inserts a row; neither
    fits the scalar values and the read requests modelled here.) *)

Record FollowPayload : Type := {
  fo_candidate_id : Z;
  fo_executive_id : string;
  schedule_time : string
}.

Record StatusPayload : Type := {
  st_candidate_id : Z;
  st_executive_id : string;
  st_status : string
}.

Record OfferSendPayload : Type := {
  os_candidate_id : Z;
  os_executive_id : string;
  offer_id : string
}.

(** [{"status": "success"}] *)
Record Ack : Type := { ack_status : string }.

Module Route.

Section Routes.

Context {S : Type} (supabase : Backend S).

Local Open Scope handler_scope.

Definition schedule_followup_call (payload : FollowPayload) : request :=
  Rpc "schedule_followup"
    (<["p_candidate_id" := VInt (fo_candidate_id payload)]>
    (<["p_exec" := VStr (fo_executive_id payload)]>
    (<["p_time" := VStr (schedule_time payload)]> ∅))).

Definition schedule_followup (payload : FollowPayload) : M S Ack :=
  let* _ := execute supabase (schedule_followup_call payload) in
  Mon.ret {| ack_status := "success" |}.

Definition update_status_call (payload : StatusPayload) : request :=
  Rpc "update_lead_status"
    (<["p_candidate_id" := VInt (st_candidate_id payload)]>
    (<["p_status" := VStr (st_status payload)]>
    (<["p_exec" := VStr (st_executive_id payload)]> ∅))).

Definition update_status (payload : StatusPayload) : M S Ack :=
  let* _ := execute supabase (update_status_call payload) in
  Mon.ret {| ack_status := "success" |}.

Definition send_offer_call (payload : OfferSendPayload) : request :=
  Rpc "record_offer_sent"
    (<["p_candidate_id" := VInt (os_candidate_id payload)]>
    (<["p_exec" := VStr (os_executive_id payload)]>
    (<["p_offer" := VStr (offer_id payload)]> ∅))).

Definition send_offer (payload : OfferSendPayload) : M S Ack :=
  let* _ := execute supabase (send_offer_call payload) in
  Mon.ret {| ack_status := "success" |}.

Definition timeline (candidate_id : Z) : M S (option (list row)) :=
  let* res := execute supabase
                (Rpc "get_timeline" {["p_candidate_id" := VInt candidate_id]}) in
  Mon.ret res.

(** [supabase.rpc("state_heatmap")]: a call without parameters. *)
Definition state_heatmap : M S (list row) :=
  let* out := execute supabase (Rpc "state_heatmap" ∅) in
  Mon.ret (default [] out).

Definition followups_query (executive_id date : string) : request :=
  Select "db_followups"
    [FEq "executive_id" (VStr executive_id);
     FLike "follow_up_at" (date ++ "%")%string].

Definition followups (executive_id date : string) : M S (list row) :=
  let* res := execute supabase (followups_query executive_id date) in
  Mon.ret (default [] res).

End Routes.

End Route.

(** ** A store with fixed answers, for running the handlers *)

Module Fixture.

Definition canned (rows : request -> result (option (list row)))
    (single : request -> result (option row)) : Backend unit :=
  {| run q s := (s, rows q); run_single q s := (s, single q) |}.

Definition w0 : world unit := {| store := tt; issued := [] |}.

Definition lead (heat : Z) (st : string) : row :=
  <["lead_heat_score" := VInt heat]> {["lead_status" := VStr st]}.

Definition call (a : string) : row := {["action_type" := VStr a]}.

Definition created (id : Z) (at_ : string) : row :=
  <["id" := VInt id]> {["created_at" := VStr at_]}.

(** Three leads, the first and the last created at the same instant. *)
Definition three_leads : list row :=
  [created 1 "2024-01-02T08:00:00"; created 2 "2024-03-05T10:30:00";
   created 3 "2024-01-02T08:00:00"].

(** A store in which [assign_lead] fails for candidate 11. *)
Definition rejects_11 : Backend unit :=
  canned (fun q =>
            match q with
            | Rpc "assign_lead" params =>
                if decide (params !! "p_candidate_id" = Some (VInt 11))
                then Raise (APIError "assign_lead failed")
                else Ok (Some [])
            | _ => Ok (Some [])
            end)
         (fun _ => Ok None).

Definition move_three : BulkAssignPayload :=
  {| assign_from := "A"; assign_to := "B";
     candidate_ids := [10; 11; 12]%Z; reason := None |}.

End Fixture.

(** ** Lists whose sort keys are strings *)

Module Keyed.

(** The key of [x] is the string [skey x]. *)
Definition is_text {A} (key : A -> value) (skey : A -> string) (x : A) : Prop :=
  key x = VStr (skey x).

Definition ascending {A} (skey : A -> string) (a b : A) : Prop :=
  String.le (skey a) (skey b).

Definition same {A} (skey : A -> string) (t : string) (a : A) : bool :=
  (skey a =? t)%string.

End Keyed.

(** ** What the aggregates are meant to count *)

Module Spec.

Fixpoint count {A} (p : A -> bool) (l : list A) : nat :=
  match l with
  | [] => 0
  | x :: l' => ((if p x then 1 else 0) + count p l')%nat
  end.

(** The heat score of a row; a row without one counts as 0. *)
Definition heat_score (r : row) : Z :=
  default 0%Z (r !! "lead_heat_score" ≫= Py.as_number).

(** The heat score column, where a row has it, holds a number. *)
Definition heat_score_ok (r : row) : Prop :=
  match r !! "lead_heat_score" with
  | Some v => is_Some (Py.as_number v)
  | None => True
  end.

Definition lead_status (r : row) : option string :=
  match r !! "lead_status" with
  | Some (VStr s) => Some s
  | _ => None
  end.

Definition has_lead_status (s : string) (r : row) : bool :=
  bool_decide (lead_status r = Some s).

(** The follow-up timestamp as a string; [None] when the row has no
    timestamp or an empty one. *)
Definition follow_up_text (r : row) : option string :=
  match r !! "follow_up_at" with
  | Some v => if Py.truthy v then Some (Py.str v) else None
  | None => None
  end.

Definition due_on (day : string) (r : row) : bool :=
  match follow_up_text r with
  | Some s => String.prefix day s
  | None => false
  end.

Definition action_type (c : row) : option string :=
  match c !! "action_type" with
  | Some (VStr s) => Some s
  | _ => None
  end.

Definition has_action_type (a : string) (c : row) : bool :=
  bool_decide (action_type c = Some a).

(** The creation timestamp the sort key reads; a row without one sorts
    as the empty string. *)
Definition created_text (r : row) : string :=
  match r !! "created_at" with
  | Some (VStr s) => s
  | _ => ""
  end.

(** The creation timestamp, where a row has it, is text. *)
Definition created_at_ok (r : row) : Prop :=
  match r !! "created_at" with
  | Some v => exists s, v = VStr s
  | None => True
  end.

(** [a] may stand before [b] in a list ordered newest first. *)
Definition newest_first (a b : row) : Prop :=
  String.le (created_text b) (created_text a).

Definition created_on (t : string) (r : row) : bool :=
  (created_text r =? t)%string.

(** [output] is [input] reordered newest first, rows created at the same
    instant keeping the order they have in [input]. *)
Definition stable_newest_first (input output : list row) : Prop :=
  Permutation input output /\
  StronglySorted newest_first output /\
  forall t, List.filter (created_on t) output = List.filter (created_on t) input.

End Spec.

(** ** Shapes of inputs and outputs used in the statements *)

Module Shape.

(** The three requests of [lead_detail], in the order they are sent. *)
Definition lead_detail_requests (id : Z) : list request :=
  [SelectMaybeSingle "db_candidates" [FEq "id" (VInt id)];
   Rpc "get_timeline" {["p_candidate_id" := VInt id]};
   Rpc "get_offers_for_candidate" {["p_candidate_id" := VInt id]}].

(** Field by field sum of two dashboard summaries. *)
Definition add_summary (a b : Dashboard) : Dashboard :=
  {| summary := {|
       total_assigned := total_assigned (summary a) + total_assigned (summary b);
       hot_leads := hot_leads (summary a) + hot_leads (summary b);
       followups_today := followups_today (summary a) + followups_today (summary b);
       fresh := fresh (summary a) + fresh (summary b);
       bargainers := bargainers (summary a) + bargainers (summary b)
     |} |}.

(** Every sort key of the rows is text; every sort key is a number. *)
Definition text_keys (rows : list row) : Prop :=
  Forall (fun r => exists s, created_at r = VStr s) rows.

Definition number_keys (rows : list row) : Prop :=
  Forall (fun r => is_Some (Py.as_number (created_at r))) rows.

(** The rows can be ordered by [sorted]: there is nothing to compare, or
    all keys are text, or all keys are numbers. *)
Definition sortable (rows : list row) : Prop :=
  (List.length rows <= 1)%nat \/ text_keys rows \/ number_keys rows.

(** A call-log row carries the [action_type] key. *)
Definition has_action_key (c : row) : Prop := is_Some (c !! "action_type").

(** Two filter payloads that differ at most in [prospect_percent]. *)
Definition same_but_prospect (p q : FilterPayload) : Prop :=
  fp_executive_id p = fp_executive_id q /\
  state p = state q /\
  category p = category q /\
  gender p = gender q /\
  status p = status q /\
  bargain_type p = bargain_type q /\
  min_heat p = min_heat q /\
  max_heat p = max_heat q /\
  sort_by p = sort_by q.

(** The filters the simple lead list adds for each optional argument. *)
Definition status_filter (status : option string) : list filter :=
  match status with
  | Some s => if bool_decide (s = "") then [] else [FEq "lead_status" (VStr s)]
  | None => []
  end.

Definition heat_filter (heat_min : option Z) : list filter :=
  match heat_min with
  | Some n => if bool_decide (n = 0%Z) then [] else [FGte "lead_heat_score" (VInt n)]
  | None => []
  end.

Definition due_filter (today : string) (follow_up_due : option string)
  : list filter :=
  if bool_decide (follow_up_due = Some "today")
  then [FLike "follow_up_at" (today ++ "%")%string] else [].

(** Two bulk assignments that differ at most in the candidate ids. *)
Definition same_route (p q : BulkAssignPayload) : Prop :=
  assign_from p = assign_from q /\
  assign_to p = assign_to q /\
  reason p = reason q.

End Shape.

(** ** Calls made one after the other until one fails

    The requests are sent in list order, each to the store the previous one
    left.  The first request that raises ends the sequence: the result is
    the store at that point, the requests sent so far (the failing one
    last) and the error; when none raises, all requests have been sent. *)

Module Reference.

Fixpoint run_until_failure {S} (B : Backend S) (reqs : list request) (s : S)
  : S * list request * option exn :=
  match reqs with
  | [] => (s, [], None)
  | q :: rest =>
      match run B q s with
      | (s1, Ok _) =>
          let '(s2, sent, err) := run_until_failure B rest s1 in
          (s2, q :: sent, err)
      | (s1, Raise e) => (s1, [q], Some e)
      end
  end.

End Reference.

(** ** Comprehensions and counting *)

Lemma comprehension_filter {A} (cond : A -> result bool) (p : A -> bool) l :
  Forall (fun x => cond x = Ok (p x)) l ->
  Py.comprehension cond l = Ok (List.filter p l).
Proof.
  induction 1 as [|x l Hx _ IH]; simpl; [reflexivity|].
  rewrite Hx, IH. simpl. destruct (p x); reflexivity.
Qed.

Lemma comprehension_raises {A} (cond : A -> result bool) l1 x l2 e :
  Forall (fun y => exists b, cond y = Ok b) l1 ->
  cond x = Raise e ->
  Py.comprehension cond (l1 ++ x :: l2) = Raise e.
Proof.
  intros Hl1 Hx. induction Hl1 as [|y l1 [b Hy] _ IH]; simpl.
  - rewrite Hx. reflexivity.
  - rewrite Hy. simpl. rewrite IH. reflexivity.
Qed.

Lemma length_filter_count {A} (p : A -> bool) l :
  List.length (List.filter p l) = Spec.count p l.
Proof.
  induction l as [|x l IH]; simpl; [reflexivity|].
  destruct (p x); simpl; rewrite IH; reflexivity.
Qed.

Lemma count_app {A} (p : A -> bool) l1 l2 :
  Spec.count p (l1 ++ l2) = (Spec.count p l1 + Spec.count p l2)%nat.
Proof. induction l1 as [|x l1 IH]; simpl; [reflexivity|]. rewrite IH. lia. Qed.

Lemma count_ext {A} (p q : A -> bool) l :
  Forall (fun x => p x = q x) l -> Spec.count p l = Spec.count q l.
Proof. induction 1 as [|x l Hx _ IH]; simpl; [reflexivity|]. rewrite Hx, IH. reflexivity. Qed.

(** ** The conditions of the comprehensions, row by row *)

Lemma is_hot_spec r :
  Spec.heat_score_ok r -> is_hot r = Ok (70 <=? Spec.heat_score r)%Z.
Proof.
  unfold Spec.heat_score_ok, Spec.heat_score, is_hot, Py.get_or.
  destruct (r !! "lead_heat_score") as [v|]; simpl; [|reflexivity].
  intros [n Hn]. destruct v; simpl in *; try discriminate;
    injection Hn as <-; reflexivity.
Qed.

Lemma is_hot_raises r :
  ~ Spec.heat_score_ok r -> is_hot r = Raise TypeError.
Proof.
  unfold Spec.heat_score_ok, is_hot, Py.get_or.
  destruct (r !! "lead_heat_score") as [v|]; simpl; [|tauto].
  destruct v; simpl; intros H; try reflexivity; exfalso; apply H; eauto.
Qed.

Lemma has_status_spec s r : has_status s r = Ok (Spec.has_lead_status s r).
Proof.
  unfold has_status, Spec.has_lead_status, Spec.lead_status, Py.get.
  f_equal. destruct (r !! "lead_status") as [[| b | n | t]|]; simpl;
    try reflexivity.
  destruct (String.eqb_spec t s) as [->|Hne].
  - symmetry. apply bool_decide_eq_true. reflexivity.
  - symmetry. apply bool_decide_eq_false. congruence.
Qed.

Lemma follows_up_today_spec today r :
  follows_up_today today r = Ok (Spec.due_on today r).
Proof.
  unfold follows_up_today, Spec.due_on, Spec.follow_up_text, Py.get, Py.item.
  destruct (r !! "follow_up_at") as [v|]; simpl; [|reflexivity].
  destruct (Py.truthy v); reflexivity.
Qed.

Lemma has_action_spec a c :
  is_Some (c !! "action_type") -> has_action a c = Ok (Spec.has_action_type a c).
Proof.
  unfold has_action, Spec.has_action_type, Spec.action_type, Py.item.
  intros [v Hv]. rewrite Hv. simpl. f_equal.
  destruct v as [| b | n | t]; simpl; try reflexivity.
  destruct (String.eqb_spec t a) as [->|Hne].
  - symmetry. apply bool_decide_eq_true. reflexivity.
  - symmetry. apply bool_decide_eq_false. congruence.
Qed.

Lemma has_action_missing a c :
  c !! "action_type" = None -> has_action a c = Raise (KeyError "action_type").
Proof. unfold has_action, Py.item. intros ->. reflexivity. Qed.

(** ** The dashboard summary as a function of the rows *)

Lemma dashboard_summary_ok today data :
  Forall Spec.heat_score_ok data ->
  dashboard_summary today data = Ok {| summary := {|
    total_assigned := List.length data;
    hot_leads := Spec.count (fun r => (70 <=? Spec.heat_score r)%Z) data;
    followups_today := Spec.count (Spec.due_on today) data;
    fresh := Spec.count (Spec.has_lead_status "fresh") data;
    bargainers := Spec.count (Spec.has_lead_status "bargaining") data
  |} |}.
Proof.
  intros Hok. unfold dashboard_summary.
  rewrite (comprehension_filter is_hot (fun r => (70 <=? Spec.heat_score r)%Z)).
  2:{ eapply List.Forall_impl; [|exact Hok]. intros r Hr. apply is_hot_spec, Hr. }
  rewrite (comprehension_filter (has_status "fresh") (Spec.has_lead_status "fresh")).
  2:{ apply Forall_forall. intros r _. apply has_status_spec. }
  rewrite (comprehension_filter (has_status "bargaining")
             (Spec.has_lead_status "bargaining")).
  2:{ apply Forall_forall. intros r _. apply has_status_spec. }
  rewrite (comprehension_filter (follows_up_today today) (Spec.due_on today)).
  2:{ apply Forall_forall. intros r _. apply follows_up_today_spec. }
  simpl. rewrite !length_filter_count. reflexivity.
Qed.

Lemma get_dashboard_run {S} (B : Backend S) today executive_id (w : world S) s' res :
  run B (dashboard_query executive_id) (store w) = (s', res) ->
  get_dashboard B today executive_id w =
    match res with
    | Ok result =>
        ({| store := s'; issued := issued w ++ [dashboard_query executive_id] |},
         dashboard_summary today (default [] result))
    | Raise e =>
        ({| store := s'; issued := issued w ++ [dashboard_query executive_id] |},
         Raise e)
    end.
Proof.
  intros Hrun. unfold get_dashboard, Mon.bind, execute, Mon.lift.
  rewrite Hrun. destruct res; reflexivity.
Qed.

Lemma heat_score_ok_set_follow_up r v :
  Spec.heat_score_ok r -> Spec.heat_score_ok (<["follow_up_at" := v]> r).
Proof.
  unfold Spec.heat_score_ok. rewrite lookup_insert_ne by discriminate. tauto.
Qed.

Lemma due_on_set_string today r s :
  Spec.due_on today (<["follow_up_at" := VStr s]> r)
  = negb (s =? "")%string && String.prefix today s.
Proof.
  unfold Spec.due_on, Spec.follow_up_text. rewrite lookup_insert_eq. simpl.
  destruct (s =? "")%string; reflexivity.
Qed.

(** C1: on the rows fetched for an executive, the dashboard handler returns
    a summary in which [total_assigned] is the number of rows, [hot_leads]
    the number of rows whose heat score is at least 70 (a row without a heat
    score counts as 0), [fresh] the number of rows with status "fresh" and
    [bargainers] the number of rows with status "bargaining". *)
Theorem get_dashboard_counts {S} (B : Backend S) today executive_id
    (w : world S) s' rows :
  run B (dashboard_query executive_id) (store w) = (s', Ok (Some rows)) ->
  Forall Spec.heat_score_ok rows ->
  exists w' d,
    get_dashboard B today executive_id w = (w', Ok d) /\
    total_assigned (summary d) = List.length rows /\
    hot_leads (summary d)
      = Spec.count (fun r => (70 <=? Spec.heat_score r)%Z) rows /\
    fresh (summary d) = Spec.count (Spec.has_lead_status "fresh") rows /\
    bargainers (summary d) = Spec.count (Spec.has_lead_status "bargaining") rows.
Proof.
  intros Hrun Hok.
  rewrite (get_dashboard_run B today executive_id w s' _ Hrun). simpl.
  rewrite (dashboard_summary_ok today rows Hok).
  eexists _, _. split; [reflexivity|]. simpl. auto.
Qed.

Lemma get_dashboard_counts_witness :
  let B := Fixture.canned
             (fun _ => Ok (Some [Fixture.lead 80 "fresh";
                                 Fixture.lead 50 "bargaining";
                                 Fixture.lead 90 "fresh";
                                 {["lead_status" := VStr "lost"]}]))
             (fun _ => Ok None) in
  exists w' d,
    get_dashboard B "2024-05-01" "E1" Fixture.w0 = (w', Ok d) /\
    total_assigned (summary d) = 4%nat /\
    hot_leads (summary d) = 2%nat /\
    fresh (summary d) = 2%nat /\
    bargainers (summary d) = 1%nat.
Proof.
  intros B.
  assert (Hrows : Forall Spec.heat_score_ok
            [Fixture.lead 80 "fresh"; Fixture.lead 50 "bargaining";
             Fixture.lead 90 "fresh"; {["lead_status" := VStr "lost"]}])
    by (repeat constructor; vm_compute; eauto).
  pose proof (get_dashboard_counts B "2024-05-01" "E1" Fixture.w0 tt _
                eq_refl Hrows) as Hw.
  vm_compute in Hw. vm_compute. exact Hw.
Defined.

(** A heat score that is present but not a number (a null column, a text)
    makes the comparison with 70 raise. *)
Lemma dashboard_summary_heat_not_number today l1 r l2 :
  Forall Spec.heat_score_ok l1 ->
  ~ Spec.heat_score_ok r ->
  dashboard_summary today (l1 ++ r :: l2) = Raise TypeError.
Proof.
  intros Hl1 Hr. unfold dashboard_summary.
  rewrite (comprehension_raises is_hot l1 r l2 TypeError).
  - reflexivity.
  - eapply List.Forall_impl; [|exact Hl1]. intros x Hx. eexists. apply is_hot_spec, Hx.
  - apply is_hot_raises, Hr.
Qed.

(** ** The performance summary as a function of the rows *)

Lemma perf_summary_ok (calls offers : list row) :
  Forall (fun c : row => is_Some (c !! "action_type")) calls ->
  perf_summary (Some calls) (Some offers) = Ok {|
    calls := List.length calls;
    connected := Spec.count (Spec.has_action_type "connected") calls;
    not_lifted := Spec.count (Spec.has_action_type "not_lifted") calls;
    offers_sent := List.length offers
  |}.
Proof.
  intros Hall. unfold perf_summary. simpl.
  rewrite (comprehension_filter (has_action "connected")
             (Spec.has_action_type "connected")).
  2:{ eapply List.Forall_impl; [|exact Hall]. intros c Hc. apply has_action_spec, Hc. }
  simpl.
  rewrite (comprehension_filter (has_action "not_lifted")
             (Spec.has_action_type "not_lifted")).
  2:{ eapply List.Forall_impl; [|exact Hall]. intros c Hc. apply has_action_spec, Hc. }
  simpl. rewrite !length_filter_count. reflexivity.
Qed.

Lemma perf_summary_missing_action (calls1 : list row) (c : row) calls2 offers :
  Forall (fun c : row => is_Some (c !! "action_type")) calls1 ->
  c !! "action_type" = None ->
  perf_summary (Some (calls1 ++ c :: calls2)%list) offers
  = Raise (KeyError "action_type").
Proof.
  intros H1 Hc. unfold perf_summary. simpl.
  rewrite (comprehension_raises (has_action "connected") calls1 c calls2
             (KeyError "action_type")).
  - reflexivity.
  - eapply List.Forall_impl; [|exact H1]. intros x Hx. eexists. apply has_action_spec, Hx.
  - apply has_action_missing, Hc.
Qed.

Lemma exec_perf_run {S} (B : Backend S) executive_id (w : world S) s1 s2 calls offers :
  run B (calls_query executive_id) (store w) = (s1, Ok calls) ->
  run B (offers_query executive_id) s1 = (s2, Ok offers) ->
  exec_perf B executive_id w =
    ({| store := s2;
        issued := (issued w ++ [calls_query executive_id])
                    ++ [offers_query executive_id] |},
     perf_summary calls offers).
Proof.
  intros H1 H2. unfold exec_perf, Mon.bind, execute, Mon.lift.
  rewrite H1. simpl. rewrite H2. reflexivity.
Qed.

(** C2: a call-log row that lacks the [action_type] field makes the
    performance handler raise [KeyError] where the claim promises the two
    counts; the dashboard handler, which reads its columns with [.get],
    returns its summary on rows that lack every optional column. *)
Theorem exec_perf_missing_action_type :
  let B := Fixture.canned
             (fun q => if decide (q = calls_query "E1")
                       then Ok (Some [Fixture.call "connected";
                                      {["executive_id" := VStr "E1"]}])
                       else Ok (Some []))
             (fun _ => Ok None) in
  snd (exec_perf B "E1" Fixture.w0) = Raise (KeyError "action_type") /\
  snd (get_dashboard B "2024-05-01" "E1" Fixture.w0)
  = Ok {| summary := {| total_assigned := 0; hot_leads := 0;
                        followups_today := 0; fresh := 0; bargainers := 0 |} |}.
Proof.
  intros B. split.
  - assert (Hp : exec_perf B "E1" Fixture.w0 =
      ({| store := tt;
          issued := (issued Fixture.w0 ++ [calls_query "E1"])
                      ++ [offers_query "E1"] |},
       perf_summary (Some [Fixture.call "connected";
                           {["executive_id" := VStr "E1"]}]) (Some []))).
    { apply (exec_perf_run B "E1" Fixture.w0 tt tt); reflexivity. }
    rewrite Hp. simpl.
    apply (perf_summary_missing_action [Fixture.call "connected"]
             {["executive_id" := VStr "E1"]} [] (Some [])).
    + repeat constructor. vm_compute. eauto.
    + reflexivity.
  - reflexivity.
Qed.

(** C3: on an empty row set the dashboard summary is all zeros, and on empty
    call-log and offer row sets the performance summary is all zeros. *)
Theorem empty_rows_all_zero {S} (B : Backend S) today executive_id
    (w w' : world S) s1 s2 s3 :
  run B (dashboard_query executive_id) (store w) = (s1, Ok (Some [])) ->
  run B (calls_query executive_id) (store w') = (s2, Ok (Some [])) ->
  run B (offers_query executive_id) s2 = (s3, Ok (Some [])) ->
  snd (get_dashboard B today executive_id w)
  = Ok {| summary := {| total_assigned := 0; hot_leads := 0;
                        followups_today := 0; fresh := 0; bargainers := 0 |} |}
  /\
  snd (exec_perf B executive_id w')
  = Ok {| calls := 0; connected := 0; not_lifted := 0; offers_sent := 0 |}.
Proof.
  intros Hd Hc Ho. split.
  - rewrite (get_dashboard_run B today executive_id w s1 _ Hd). reflexivity.
  - rewrite (exec_perf_run B executive_id w' s2 s3 _ _ Hc Ho). reflexivity.
Qed.

Lemma empty_rows_all_zero_witness :
  let B := Fixture.canned (fun _ => Ok (Some [])) (fun _ => Ok None) in
  snd (get_dashboard B "2024-05-01" "E1" Fixture.w0)
  = Ok {| summary := {| total_assigned := 0; hot_leads := 0;
                        followups_today := 0; fresh := 0; bargainers := 0 |} |}
  /\
  snd (exec_perf B "E1" Fixture.w0)
  = Ok {| calls := 0; connected := 0; not_lifted := 0; offers_sent := 0 |}.
Proof.
  intros B.
  exact (empty_rows_all_zero B "2024-05-01" "E1" Fixture.w0 Fixture.w0 tt tt tt
           eq_refl eq_refl eq_refl).
Defined.

(** The dashboard also treats a response without data as no rows; the
    performance handler iterates over [calls.data] as it is. *)
Lemma no_data_summaries {S} (B : Backend S) today executive_id (w : world S) s1 s2 offers :
  (run B (dashboard_query executive_id) (store w) = (s1, Ok None) ->
   snd (get_dashboard B today executive_id w)
   = Ok {| summary := {| total_assigned := 0; hot_leads := 0;
                         followups_today := 0; fresh := 0; bargainers := 0 |} |})
  /\
  (run B (calls_query executive_id) (store w) = (s1, Ok None) ->
   run B (offers_query executive_id) s1 = (s2, Ok offers) ->
   snd (exec_perf B executive_id w) = Raise TypeError).
Proof.
  split.
  - intros Hd. rewrite (get_dashboard_run B today executive_id w s1 _ Hd). reflexivity.
  - intros Hc Ho. rewrite (exec_perf_run B executive_id w s1 s2 _ _ Hc Ho). reflexivity.
Qed.

(** C4: [followups_today] is the number of rows whose follow-up timestamp,
    read as a string, starts with the reference date.  Replacing the
    timestamp of a counted row by a string that does not start with the
    date takes exactly that row out of the count; a row whose timestamp is
    absent, null or empty is never counted; on a non-empty string the test
    is the prefix test and nothing else. *)
Theorem followups_today_prefix_match {S} (B : Backend S) today executive_id
    (w : world S) s' rows :
  run B (dashboard_query executive_id) (store w) = (s', Ok (Some rows)) ->
  Forall Spec.heat_score_ok rows ->
  exists w' d,
    get_dashboard B today executive_id w = (w', Ok d) /\
    followups_today (summary d) = Spec.count (Spec.due_on today) rows /\
    (forall (B2 : Backend S) (w2 : world S) s2 l1 r l2 s,
        rows = (l1 ++ r :: l2)%list ->
        Spec.due_on today r = true ->
        String.prefix today s = false ->
        run B2 (dashboard_query executive_id) (store w2)
        = (s2, Ok (Some (l1 ++ <["follow_up_at" := VStr s]> r :: l2)%list)) ->
        exists w2' d2,
          get_dashboard B2 today executive_id w2 = (w2', Ok d2) /\
          followups_today (summary d) = Datatypes.S (followups_today (summary d2))) /\
    (forall r, In r rows ->
        r !! "follow_up_at" = None \/
        r !! "follow_up_at" = Some VNone \/
        r !! "follow_up_at" = Some (VStr "") ->
        Spec.due_on today r = false) /\
    (forall r s, In r rows ->
        r !! "follow_up_at" = Some (VStr s) -> s <> "" ->
        Spec.due_on today r = String.prefix today s).
Proof.
  intros Hrun Hok.
  rewrite (get_dashboard_run B today executive_id w s' _ Hrun). simpl.
  rewrite (dashboard_summary_ok today rows Hok).
  eexists _, _. split; [reflexivity|]. simpl. split; [reflexivity|].
  split; [|split].
  - intros B2 w2 s2 l1 r l2 s -> Hdue Hs Hrun2.
    rewrite (get_dashboard_run B2 today executive_id w2 s2 _ Hrun2). simpl.
    rewrite dashboard_summary_ok.
    + eexists _, _. split; [reflexivity|]. simpl.
      rewrite !count_app. simpl. rewrite Hdue, due_on_set_string, Hs.
      rewrite andb_false_r. lia.
    + apply Forall_app in Hok as [H1 H2]. apply Forall_app. split; [exact H1|].
      inversion H2; subst. constructor; [|assumption].
      apply heat_score_ok_set_follow_up. assumption.
  - intros r _ Hr. unfold Spec.due_on, Spec.follow_up_text.
    destruct Hr as [-> | [-> | ->]]; reflexivity.
  - intros r s _ Hr Hs. unfold Spec.due_on, Spec.follow_up_text.
    rewrite Hr. simpl. apply String.eqb_neq in Hs. rewrite Hs. reflexivity.
Qed.

Lemma followups_today_prefix_match_witness :
  let rows : list row :=
    [<["follow_up_at" := VStr "2024-05-01T09:30:00"]> (Fixture.lead 80 "fresh");
     <["follow_up_at" := VStr ""]> (Fixture.lead 50 "bargaining");
     <["follow_up_at" := VStr "2024-05-02T10:00:00"]> (Fixture.lead 90 "fresh");
     Fixture.lead 10 "fresh"] in
  let B := Fixture.canned (fun _ => Ok (Some rows)) (fun _ => Ok None) in
  exists w' d,
    get_dashboard B "2024-05-01" "E1" Fixture.w0 = (w', Ok d) /\
    followups_today (summary d) = 1%nat.
Proof.
  intros rows B.
  assert (Hrows : Forall Spec.heat_score_ok rows)
    by (repeat constructor; vm_compute; eauto).
  destruct (followups_today_prefix_match B "2024-05-01" "E1" Fixture.w0 tt rows
              eq_refl Hrows) as (w' & d & Hd & Hn & _).
  exists w', d. split; [exact Hd|]. rewrite Hn. vm_compute. reflexivity.
Defined.

(** ** [sorted] on string keys *)

Lemma ltb_leb_flip (s t : string) : String.ltb s t = negb (String.leb t s).
Proof.
  unfold String.ltb, String.leb. rewrite (String.compare_antisym s t).
  destruct (String.compare t s); reflexivity.
Qed.

Lemma StronglySorted_rev {A} (R : A -> A -> Prop) l :
  StronglySorted R l -> StronglySorted (flip R) (rev l).
Proof.
  induction 1 as [|x l Hl IH Hx]; simpl; [constructor|].
  apply StronglySorted_app. split; [|split].
  - intros x1 x2 H1 H2. apply list_elem_of_In in H1, H2.
    destruct H2 as [<-|[]]. apply in_rev in H1.
    unfold flip. rewrite List.Forall_forall in Hx. apply Hx, H1.
  - exact IH.
  - repeat constructor.
Qed.

Section StringKeys.

Context {A : Type} (key : A -> value) (skey : A -> string).

Local Abbreviation is_text := (Keyed.is_text key skey).
Local Abbreviation asc := (Keyed.ascending skey).
Local Abbreviation same := (Keyed.same skey).

Lemma insert_text x l :
  is_text x -> Forall is_text l ->
  exists l',
    PySort.insert key x l = Ok l' /\
    Permutation (x :: l) l' /\
    (forall t, List.filter (same t) l' = List.filter (same t) (x :: l)) /\
    (StronglySorted asc l -> StronglySorted asc l').
Proof.
  intros Hx Hl. induction Hl as [|y l Hy Hl IH].
  - exists [x]. simpl. repeat split; auto. intros _. repeat constructor.
  - simpl PySort.insert. rewrite Hy, Hx. simpl.
    destruct (String.ltb (skey y) (skey x)) eqn:Hlt.
    + destruct IH as (l' & -> & Hperm & Hstab & Hsort). simpl.
      exists (y :: l'). split; [reflexivity|]. split; [|split].
      * rewrite perm_swap. constructor. exact Hperm.
      * intros t. cbn [List.filter]. rewrite Hstab. cbn [List.filter].
        destruct (same t y) eqn:Ey, (same t x) eqn:Ex; try reflexivity.
        exfalso. unfold same in Ey, Ex.
        apply String.eqb_eq in Ey, Ex. rewrite ltb_leb_flip, Ex, <- Ey in Hlt.
        assert (Hrefl : String.le (skey y) (skey y)) by reflexivity.
        unfold String.le in Hrefl. destruct (String.leb (skey y) (skey y));
          [discriminate | exact Hrefl].
      * intros Hs. apply StronglySorted_inv in Hs as [Hs Hall].
        constructor; [apply Hsort, Hs|].
        eapply Permutation_Forall; [exact Hperm|].
        constructor; [|exact Hall].
        unfold asc, String.le. rewrite ltb_leb_flip in Hlt.
        destruct (String.leb_total (skey y) (skey x)) as [->| Hc]; [exact I|].
        rewrite Hc in Hlt. discriminate.
    + exists (x :: y :: l). split; [reflexivity|]. split; [reflexivity|].
      split; [reflexivity|]. intros Hs.
      assert (Hxy : asc x y).
      { unfold asc, String.le. rewrite ltb_leb_flip in Hlt.
        destruct (String.leb (skey x) (skey y)); [exact I | discriminate]. }
      constructor; [exact Hs|]. constructor; [exact Hxy|].
      apply StronglySorted_inv in Hs as [_ Hall].
      eapply List.Forall_impl; [|exact Hall]. intros z Hz.
      unfold asc in *. etransitivity; eassumption.
Qed.

Lemma sort_asc_text l :
  Forall is_text l ->
  exists l',
    PySort.sort_asc key l = Ok l' /\
    Permutation l l' /\
    (forall t, List.filter (same t) l' = List.filter (same t) l) /\
    StronglySorted asc l'.
Proof.
  induction 1 as [|x l Hx Hl IH].
  - exists []. simpl. repeat split; auto. constructor.
  - destruct IH as (l1 & Hsort & Hperm & Hstab & Hss). simpl. rewrite Hsort. simpl.
    destruct (insert_text x l1 Hx) as (l' & Hins & Hperm' & Hstab' & Hss').
    { eapply Permutation_Forall; [exact Hperm|exact Hl]. }
    exists l'. split; [exact Hins|]. split; [|split].
    + rewrite <- Hperm'. constructor. exact Hperm.
    + intros t. rewrite Hstab'. simpl. rewrite Hstab. reflexivity.
    + apply Hss', Hss.
Qed.

Lemma sort_asc_sorted l :
  Forall is_text l -> StronglySorted asc l -> PySort.sort_asc key l = Ok l.
Proof.
  induction 1 as [|x l Hx Hl IH]; intros Hs; [reflexivity|].
  apply StronglySorted_inv in Hs as [Hs Hall]. simpl. rewrite (IH Hs). simpl.
  destruct l as [|y l']; [reflexivity|]. simpl.
  apply Forall_inv in Hl, Hall. rewrite Hl, Hx. simpl.
  rewrite ltb_leb_flip. unfold asc, String.le in Hall.
  destruct (String.leb (skey x) (skey y)); [reflexivity | destruct Hall].
Qed.

Lemma sorted_reverse_text l :
  Forall is_text l ->
  exists l',
    PySort.sorted key true l = Ok l' /\
    Permutation l l' /\
    (forall t, List.filter (same t) l' = List.filter (same t) l) /\
    StronglySorted (flip asc) l' /\
    PySort.sorted key true l' = Ok l'.
Proof.
  intros Hl. unfold PySort.sorted.
  destruct (sort_asc_text (rev l)) as (l1 & Hsort & Hperm & Hstab & Hss).
  { apply Forall_rev, Hl. }
  rewrite Hsort. simpl. exists (rev l1). split; [reflexivity|].
  split; [|split; [|split]].
  - rewrite <- (Permutation_rev l1), <- Hperm. apply Permutation_rev.
  - intros t. rewrite List.filter_rev, Hstab, List.filter_rev, rev_involutive.
    reflexivity.
  - apply StronglySorted_rev, Hss.
  - rewrite rev_involutive, sort_asc_sorted; [reflexivity| |exact Hss].
    eapply Permutation_Forall; [exact Hperm|]. apply Forall_rev, Hl.
Qed.

End StringKeys.

(** ** The lead lists *)

Lemma created_at_text r :
  Spec.created_at_ok r -> created_at r = VStr (Spec.created_text r).
Proof.
  unfold Spec.created_at_ok, created_at, Spec.created_text, Py.get_or.
  destruct (r !! "created_at") as [v|]; simpl; [|reflexivity].
  intros [s ->]. reflexivity.
Qed.

Lemma sort_newest_text rows :
  Forall Spec.created_at_ok rows ->
  exists out,
    sort_newest rows = Ok out /\
    Spec.stable_newest_first rows out /\
    sort_newest out = Ok out.
Proof.
  intros Hok. unfold sort_newest.
  destruct (sorted_reverse_text created_at Spec.created_text rows)
    as (out & Hsort & Hperm & Hstab & Hss & Hidem).
  { eapply List.Forall_impl; [|exact Hok]. intros r Hr. apply created_at_text, Hr. }
  exists out. split; [exact Hsort|]. split; [|exact Hidem].
  split; [exact Hperm|]. split; [exact Hss|exact Hstab].
Qed.

Lemma is_newest_spec sort :
  Py.eq (of_str sort) (VStr "newest") = bool_decide (sort = Some "newest").
Proof.
  destruct sort as [s|]; simpl; [|reflexivity].
  destruct (String.eqb_spec s "newest") as [->|Hne].
  - reflexivity.
  - symmetry. apply bool_decide_eq_false. congruence.
Qed.

Lemma lead_list_get_run {S} (B : Backend S) today executive_id status heat_min
    follow_up_due sort (w : world S) s' res :
  run B (lead_list_query today executive_id status heat_min follow_up_due) (store w)
  = (s', Ok res) ->
  snd (lead_list_get B today executive_id status heat_min follow_up_due sort w)
  = shape_leads executive_id sort (default [] res).
Proof.
  intros Hrun. unfold lead_list_get, shape_leads, Mon.bind, execute.
  rewrite Hrun, is_newest_spec. simpl.
  destruct (bool_decide (sort = Some "newest")); simpl; [|reflexivity].
  unfold Mon.lift. destruct (sort_newest (default [] res)); reflexivity.
Qed.

Lemma lead_list_post_run {S} (B : Backend S) payload (w : world S) s' res :
  run B (Rpc "get_leads_filtered" (filter_params payload)) (store w) = (s', Ok res) ->
  snd (lead_list_post B payload w)
  = shape_leads (fp_executive_id payload) (sort_by payload) (default [] res).
Proof.
  intros Hrun. unfold lead_list_post, shape_leads, Mon.bind, execute.
  rewrite Hrun, is_newest_spec. simpl.
  destruct (bool_decide (sort_by payload = Some "newest")); simpl; [|reflexivity].
  unfold Mon.lift. destruct (sort_newest (default [] res)); reflexivity.
Qed.

Lemma shape_leads_newest executive_id rows :
  Forall Spec.created_at_ok rows ->
  exists out,
    shape_leads executive_id (Some "newest") rows = Ok out /\
    ll_executive_id out = executive_id /\
    lead_count out = List.length rows /\
    Spec.stable_newest_first rows (leads out) /\
    sort_newest (leads out) = Ok (leads out).
Proof.
  intros Hok. destruct (sort_newest_text rows Hok) as (sorted & Hs & Hst & Hid).
  unfold shape_leads. rewrite bool_decide_eq_true_2 by reflexivity.
  rewrite Hs. simpl. eexists. split; [reflexivity|]. simpl.
  split; [reflexivity|]. split; [|split; assumption].
  destruct Hst as (Hperm & _). symmetry. apply Permutation_length, Hperm.
Qed.

Lemma shape_leads_other executive_id sort rows :
  sort <> Some "newest" ->
  shape_leads executive_id sort rows
  = Ok {| ll_executive_id := executive_id;
          lead_count := List.length rows;
          leads := rows |}.
Proof.
  intros Hne. unfold shape_leads. rewrite bool_decide_eq_false_2 by exact Hne.
  reflexivity.
Qed.

(** C7: with the directive "newest" both lead lists return the fetched rows
    reordered by creation timestamp, newest first; rows with equal
    timestamps keep their input order; sorting the result again changes
    nothing.  With any other directive, or none, the rows are returned in
    the order the store delivered them. *)
Theorem newest_sort_stable_descending {S} (B : Backend S) today executive_id
    status heat_min follow_up_due payload (w wp : world S) s1 s2 rows posted :
  run B (lead_list_query today executive_id status heat_min follow_up_due) (store w)
  = (s1, Ok (Some rows)) ->
  run B (Rpc "get_leads_filtered" (filter_params payload)) (store wp)
  = (s2, Ok (Some posted)) ->
  (Forall Spec.created_at_ok rows ->
   exists out,
     snd (lead_list_get B today executive_id status heat_min follow_up_due
            (Some "newest") w) = Ok out /\
     Spec.stable_newest_first rows (leads out) /\
     sort_newest (leads out) = Ok (leads out)) /\
  (Forall Spec.created_at_ok posted -> sort_by payload = Some "newest" ->
   exists out,
     snd (lead_list_post B payload wp) = Ok out /\
     Spec.stable_newest_first posted (leads out) /\
     sort_newest (leads out) = Ok (leads out)) /\
  (forall sort, sort <> Some "newest" ->
     snd (lead_list_get B today executive_id status heat_min follow_up_due sort w)
     = Ok {| ll_executive_id := executive_id;
             lead_count := List.length rows;
             leads := rows |}) /\
  (sort_by payload <> Some "newest" ->
     snd (lead_list_post B payload wp)
     = Ok {| ll_executive_id := fp_executive_id payload;
             lead_count := List.length posted;
             leads := posted |}).
Proof.
  intros Hget Hpost.
  split; [|split; [|split]].
  - intros Hok. rewrite (lead_list_get_run B _ _ _ _ _ _ w s1 _ Hget). simpl.
    destruct (shape_leads_newest executive_id rows Hok)
      as (out & Hout & _ & _ & Hst & Hid).
    exists out. auto.
  - intros Hok Hsort. rewrite (lead_list_post_run B payload wp s2 _ Hpost).
    rewrite Hsort. simpl.
    destruct (shape_leads_newest (fp_executive_id payload) posted Hok)
      as (out & Hout & _ & _ & Hst & Hid).
    exists out. auto.
  - intros sort Hne. rewrite (lead_list_get_run B _ _ _ _ _ _ w s1 _ Hget). simpl.
    apply shape_leads_other, Hne.
  - intros Hne. rewrite (lead_list_post_run B payload wp s2 _ Hpost). simpl.
    apply shape_leads_other, Hne.
Qed.

Lemma newest_sort_stable_descending_witness :
  let B := Fixture.canned (fun _ => Ok (Some Fixture.three_leads)) (fun _ => Ok None) in
  Forall Spec.created_at_ok Fixture.three_leads /\
  exists out,
    snd (lead_list_get B "2024-05-01" "E1" None None None (Some "newest") Fixture.w0)
    = Ok out /\
    Spec.stable_newest_first Fixture.three_leads (leads out) /\
    sort_newest (leads out) = Ok (leads out).
Proof.
  intros B.
  assert (Hok : Forall Spec.created_at_ok Fixture.three_leads)
    by (repeat constructor; vm_compute; eauto).
  split; [exact Hok|].
  exact (proj1 (newest_sort_stable_descending B "2024-05-01" "E1" None None None
                  (FilterPayload_defaults "E1") Fixture.w0 Fixture.w0 tt tt
                  Fixture.three_leads Fixture.three_leads eq_refl eq_refl) Hok).
Defined.

Example newest_sort_three_leads :
  sort_newest Fixture.three_leads
  = Ok [Fixture.created 2 "2024-03-05T10:30:00";
        Fixture.created 1 "2024-01-02T08:00:00";
        Fixture.created 3 "2024-01-02T08:00:00"].
Proof. vm_compute. reflexivity. Qed.

(** A creation timestamp that is null cannot be ordered: with two such rows
    the sort raises. *)
Example newest_sort_null_timestamps :
  sort_newest [{["created_at" := VNone]}; {["created_at" := VNone]}]
  = Raise TypeError.
Proof. vm_compute. reflexivity. Qed.

(** C9: in the simple lead list a status that is the empty string and a
    [heat_min] of 0 are treated as unset: the query sent to the store is the
    one of the request without the field, it carries no status and no
    heat-score filter, and so the handler behaves the same. *)
Theorem lead_list_get_falsy_is_unset {S} (B : Backend S) today executive_id
    status heat_min follow_up_due sort (w : world S) :
  lead_list_query today executive_id (Some "") heat_min follow_up_due
  = lead_list_query today executive_id None heat_min follow_up_due /\
  lead_list_query today executive_id status (Some 0%Z) follow_up_due
  = lead_list_query today executive_id status None follow_up_due /\
  lead_list_query today executive_id None None follow_up_due
  = Select "db_candidates"
      (FEq "executive_id" (VStr executive_id)
       :: if bool_decide (follow_up_due = Some "today")
          then [FLike "follow_up_at" (today ++ "%")] else []) /\
  lead_list_get B today executive_id (Some "") heat_min follow_up_due sort w
  = lead_list_get B today executive_id None heat_min follow_up_due sort w /\
  lead_list_get B today executive_id status (Some 0%Z) follow_up_due sort w
  = lead_list_get B today executive_id status None follow_up_due sort w.
Proof.
  split; [reflexivity|]. split; [reflexivity|]. split; [|split; reflexivity].
  unfold lead_list_query. simpl.
  destruct follow_up_due as [d|]; simpl; [|reflexivity].
  destruct (String.eqb_spec d "today") as [->|Hne].
  - reflexivity.
  - rewrite bool_decide_eq_false_2 by congruence. reflexivity.
Qed.

Lemma or_empty_id (d : row) : Py.or_empty d = d.
Proof.
  unfold Py.or_empty. destruct (bool_decide (d = ∅)) eqn:Hd; [|reflexivity].
  apply bool_decide_eq_true in Hd. symmetry. exact Hd.
Qed.

Lemma get_profile_run {S} (B : Backend S) phone (w : world S) s1 res :
  run_single B (SelectMaybeSingle "db_executives" [FEq "mobile" (VStr phone)])
    (store w) = (s1, Ok res) ->
  snd (get_profile B phone w)
  = match res with
    | Some profile => Ok profile
    | None => Raise AttributeError
    end.
Proof.
  intros Hp. unfold get_profile, Mon.bind, execute_single, Mon.lift, Mon.ret.
  rewrite Hp. simpl. destruct res as [profile|]; simpl; [|reflexivity].
  rewrite or_empty_id. reflexivity.
Qed.

Lemma lead_detail_run {S} (B : Backend S) id (w : world S) s1 s2 s3 cand tl ofs :
  run_single B (SelectMaybeSingle "db_candidates" [FEq "id" (VInt id)])
    (store w) = (s1, Ok cand) ->
  run B (Rpc "get_timeline" {["p_candidate_id" := VInt id]}) s1 = (s2, Ok tl) ->
  run B (Rpc "get_offers_for_candidate" {["p_candidate_id" := VInt id]}) s2
  = (s3, Ok ofs) ->
  lead_detail B id w
  = ({| store := s3;
        issued := (issued w ++ Shape.lead_detail_requests id)%list |},
     match cand with
     | Some c => Ok {| candidate := c; timeline := tl; offers := ofs |}
     | None => Raise AttributeError
     end).
Proof.
  intros Hc Ht Ho.
  unfold lead_detail, Mon.bind, execute_single, execute, Mon.lift, Mon.ret,
    Shape.lead_detail_requests.
  rewrite Hc. simpl. rewrite Ht. simpl. rewrite Ho. simpl.
  rewrite <- !app_assoc. simpl. destruct cand; reflexivity.
Qed.

(** C8: when no executive has the phone number, the profile lookup does not
    return the empty object its [or {}] is there for: the lookup result is
    [None], reading [.data] off it raises [AttributeError].  The lead
    detail of an unknown candidate id fails the same way, after all three
    of its requests have been sent. *)
Theorem not_found_raises :
  let B := Fixture.canned (fun _ => Ok (Some [])) (fun _ => Ok None) in
  snd (get_profile B "9990001111" Fixture.w0) = Raise AttributeError /\
  snd (lead_detail B 42 Fixture.w0) = Raise AttributeError /\
  issued (fst (lead_detail B 42 Fixture.w0)) = Shape.lead_detail_requests 42.
Proof.
  intros B. split; [|split].
  - exact (get_profile_run B "9990001111" Fixture.w0 tt None eq_refl).
  - rewrite (lead_detail_run B 42 Fixture.w0 tt tt tt None (Some []) (Some [])
               eq_refl eq_refl eq_refl).
    reflexivity.
  - rewrite (lead_detail_run B 42 Fixture.w0 tt tt tt None (Some []) (Some [])
               eq_refl eq_refl eq_refl).
    reflexivity.
Qed.

(** A lookup that finds its row returns it: the profile as stored, the
    candidate next to the timeline and the offers. *)
Lemma found_is_returned {S} (B : Backend S) phone id (w wd : world S)
    s1 s2 s3 s4 profile cand tl ofs :
  run_single B (SelectMaybeSingle "db_executives" [FEq "mobile" (VStr phone)])
    (store w) = (s1, Ok (Some profile)) ->
  run_single B (SelectMaybeSingle "db_candidates" [FEq "id" (VInt id)])
    (store wd) = (s2, Ok (Some cand)) ->
  run B (Rpc "get_timeline" {["p_candidate_id" := VInt id]}) s2 = (s3, Ok tl) ->
  run B (Rpc "get_offers_for_candidate" {["p_candidate_id" := VInt id]}) s3
  = (s4, Ok ofs) ->
  snd (get_profile B phone w) = Ok profile /\
  snd (lead_detail B id wd)
  = Ok {| candidate := cand; timeline := tl; offers := ofs |}.
Proof.
  intros Hp Hc Ht Ho. split.
  - exact (get_profile_run B phone w s1 (Some profile) Hp).
  - rewrite (lead_detail_run B id wd s2 s3 s4 (Some cand) tl ofs Hc Ht Ho).
    reflexivity.
Qed.

(** C10: when the profile lookup of the manager's executive view finds no
    row, reading the name off the absent profile fails: the handler returns
    no response for that executive id, and raises [AttributeError] once the
    candidate query has come back. *)
Theorem manager_leads_absent_profile {S} (B : Backend S) executive_id
    (w : world S) s1 :
  run_single B
    (SelectMaybeSingle "db_executives" [FEq "executive_id" (VStr executive_id)])
    (store w) = (s1, Ok None) ->
  (forall out, snd (manager_leads B executive_id w) <> Ok out) /\
  (forall s2 rows,
      run B (Select "db_candidates" [FEq "executive_id" (VStr executive_id)]) s1
      = (s2, Ok rows) ->
      snd (manager_leads B executive_id w) = Raise AttributeError).
Proof.
  intros Hp. unfold manager_leads, Mon.bind, execute_single, execute.
  rewrite Hp. simpl.
  destruct (run B (Select "db_candidates" [FEq "executive_id" (VStr executive_id)]) s1)
    as [s2 [rows|e]] eqn:Hl; simpl.
  - split; [discriminate|]. intros s2' rows' H. reflexivity.
  - split; [discriminate|]. intros s2' rows' H. discriminate.
Qed.

Lemma manager_leads_absent_profile_witness :
  let B := Fixture.canned (fun _ => Ok (Some Fixture.three_leads)) (fun _ => Ok None) in
  snd (manager_leads B "E404" Fixture.w0) = Raise AttributeError.
Proof.
  intros B.
  exact (proj2 (manager_leads_absent_profile B "E404" Fixture.w0 tt eq_refl)
           tt (Some Fixture.three_leads) eq_refl).
Defined.

(** With a profile row the view has the documented shape, the name
    defaulting to the empty string. *)
Lemma manager_leads_with_profile {S} (B : Backend S) executive_id
    (w : world S) s1 s2 profile rows :
  run_single B
    (SelectMaybeSingle "db_executives" [FEq "executive_id" (VStr executive_id)])
    (store w) = (s1, Ok (Some profile)) ->
  run B (Select "db_candidates" [FEq "executive_id" (VStr executive_id)]) s1
  = (s2, Ok rows) ->
  snd (manager_leads B executive_id w)
  = Ok {| executive := {| name := default (VStr "") (profile !! "name");
                          assigned_count := List.length (default [] rows) |};
          ml_leads := default [] rows |}.
Proof.
  intros Hp Hl. unfold manager_leads, Mon.bind, execute_single, execute.
  rewrite Hp. simpl. rewrite Hl. reflexivity.
Qed.

(** ** The advanced filter *)

(** C6, as stated, fails: a request that leaves every optional field unset
    still forwards an upper heat bound of 100, the default of [max_heat],
    where the claim has "no constraint" for each predicate. *)
Lemma unset_filter_forwards_max_heat :
  filter_params (FilterPayload_defaults "E1") !! "p_max_heat" = Some (VInt 100) /\
  ~ Forall (fun k => filter_params (FilterPayload_defaults "E1") !! k = Some VNone)
      ["p_state"; "p_category"; "p_gender"; "p_status"; "p_bargain";
       "p_min_heat"; "p_max_heat"].
Proof.
  split; [reflexivity|].
  intros H. rewrite List.Forall_forall in H.
  specialize (H "p_max_heat"). simpl in H.
  assert (Hin : filter_params (FilterPayload_defaults "E1") !! "p_max_heat"
                = Some VNone) by (apply H; tauto).
  vm_compute in Hin. discriminate.
Qed.

(** C6, amended: for a request that leaves every optional field unset the
    handler sends one call to [get_leads_filtered] whose parameters are the
    executive id, null for state, category, gender, status, bargain type
    and minimum heat, and 100 for the maximum heat; no other parameter is
    sent (the sort directive stays in the handler), and the rows come back
    in the order the store delivered them. *)
Theorem unset_filter_params {S} (B : Backend S) executive_id (w : world S) :
  filter_params (FilterPayload_defaults executive_id) !! "p_executive_id"
  = Some (VStr executive_id) /\
  Forall (fun k => filter_params (FilterPayload_defaults executive_id) !! k
                   = Some VNone)
    ["p_state"; "p_category"; "p_gender"; "p_status"; "p_bargain"; "p_min_heat"] /\
  filter_params (FilterPayload_defaults executive_id) !! "p_max_heat"
  = Some (VInt 100) /\
  dom (filter_params (FilterPayload_defaults executive_id))
  = list_to_set ["p_executive_id"; "p_state"; "p_category"; "p_gender";
                 "p_status"; "p_bargain"; "p_min_heat"; "p_max_heat"] /\
  issued (fst (lead_list_post B (FilterPayload_defaults executive_id) w))
  = (issued w
     ++ [Rpc "get_leads_filtered"
           (filter_params (FilterPayload_defaults executive_id))])%list /\
  match snd (run B (Rpc "get_leads_filtered"
                      (filter_params (FilterPayload_defaults executive_id)))
               (store w)) with
  | Ok res =>
      snd (lead_list_post B (FilterPayload_defaults executive_id) w)
      = Ok {| ll_executive_id := executive_id;
              lead_count := List.length (default [] res);
              leads := default [] res |}
  | Raise e =>
      snd (lead_list_post B (FilterPayload_defaults executive_id) w) = Raise e
  end.
Proof.
  split; [reflexivity|]. split; [repeat constructor|]. split; [reflexivity|].
  split.
  - unfold filter_params. rewrite !dom_insert_L, dom_empty_L. simpl.
    set_solver.
  - unfold lead_list_post, Mon.bind, execute. simpl.
    destruct (run B _ (store w)) as [s' [res|e]]; simpl; split; reflexivity.
Qed.

(** ** The bulk assignment *)

Lemma assign_one_run {S} (B : Backend S) payload cid (w : world S) :
  assign_one B payload cid w
  = ({| store := fst (run B (assign_lead payload cid) (store w));
        issued := (issued w ++ [assign_lead payload cid])%list |},
     match snd (run B (assign_lead payload cid) (store w)) with
     | Ok _ => Ok tt
     | Raise e => Raise e
     end).
Proof.
  unfold assign_one, Mon.bind, execute.
  destruct (run B (assign_lead payload cid) (store w)) as [s1 [d|e]]; reflexivity.
Qed.

Lemma for_each_cons {S A} (x : A) l (body : A -> M S unit) (w : world S) :
  Mon.for_each (x :: l) body w
  = match body x w with
    | (w', Ok _) => Mon.for_each l body w'
    | (w', Raise e) => (w', Raise e)
    end.
Proof. reflexivity. Qed.

Lemma for_each_assign {S} (B : Backend S) payload ids (w : world S) :
  exists k,
    (k <= List.length ids)%nat /\
    issued (fst (Mon.for_each ids (assign_one B payload) w))
    = (issued w ++ List.map (assign_lead payload) (firstn k ids))%list /\
    match snd (Mon.for_each ids (assign_one B payload) w) with
    | Ok _ => k = List.length ids
    | Raise e =>
        (0 < k)%nat /\
        exists s cid,
          nth_error ids (k - 1) = Some cid /\
          snd (run B (assign_lead payload cid) s) = Raise e
    end.
Proof.
  revert w. induction ids as [|cid ids IH]; intros w.
  - exists 0%nat. simpl. rewrite app_nil_r. auto.
  - rewrite for_each_cons, assign_one_run.
    destruct (run B (assign_lead payload cid) (store w)) as [s1 [d|e]] eqn:Hrun;
      cbn [fst snd].
    + destruct (IH {| store := s1;
                      issued := (issued w ++ [assign_lead payload cid])%list |})
        as (k & Hk & Hiss & Hres).
      exists (Datatypes.S k). split; [simpl; lia|]. split.
      * rewrite Hiss. simpl. rewrite <- app_assoc. reflexivity.
      * destruct (snd (Mon.for_each ids _ _)) as [u|e].
        -- simpl. lia.
        -- destruct Hres as (Hpos & s & c & Hnth & Hc). split; [lia|].
           exists s, c. split; [|exact Hc].
           destruct k as [|k']; [lia|]. simpl in *. rewrite Nat.sub_0_r in *.
           exact Hnth.
    + exists 1%nat. split; [simpl; lia|]. split; [reflexivity|].
      split; [lia|]. exists (store w), cid. split; [reflexivity|].
      rewrite Hrun. reflexivity.
Qed.

(** C5, as stated, fails: when the call for the second of three candidate
    ids fails, the handler raises that error after two calls; the third id
    is never attempted and no count is returned. *)
Lemma assign_bulk_stops_at_failure :
  snd (assign_bulk Fixture.rejects_11 Fixture.move_three Fixture.w0)
  = Raise (APIError "assign_lead failed") /\
  issued (fst (assign_bulk Fixture.rejects_11 Fixture.move_three Fixture.w0))
  = [assign_lead Fixture.move_three 10; assign_lead Fixture.move_three 11] /\
  ~ (snd (assign_bulk Fixture.rejects_11 Fixture.move_three Fixture.w0)
     = Ok {| assigned := 3 |} /\
     issued (fst (assign_bulk Fixture.rejects_11 Fixture.move_three Fixture.w0))
     = List.map (assign_lead Fixture.move_three) [10; 11; 12]%Z).
Proof.
  assert (Hrun : assign_bulk Fixture.rejects_11 Fixture.move_three Fixture.w0
                 = ({| store := tt;
                       issued := [assign_lead Fixture.move_three 10;
                                  assign_lead Fixture.move_three 11] |},
                    Raise (APIError "assign_lead failed")))
    by (vm_compute; reflexivity).
  rewrite Hrun. simpl. split; [reflexivity|]. split; [reflexivity|].
  intros [H _]. discriminate.
Qed.

Lemma run_until_failure_sent {S} (B : Backend S) reqs (s s' : S) sent :
  Reference.run_until_failure B reqs s = (s', sent, None) -> sent = reqs.
Proof.
  revert s s' sent. induction reqs as [|q reqs IH]; simpl; intros s s' sent H.
  - injection H as _ <-. reflexivity.
  - destruct (run B q s) as [s1 [d|e]]; [|discriminate].
    destruct (Reference.run_until_failure B reqs s1) as [[s2 sent2] err] eqn:Hr.
    injection H as _ <- ->. f_equal. eapply IH, Hr.
Qed.

Lemma run_until_failure_app {S} (B : Backend S) reqs1 reqs2 (s s1 : S) :
  Reference.run_until_failure B reqs1 s = (s1, reqs1, None) ->
  Reference.run_until_failure B (reqs1 ++ reqs2) s
  = (let '(s2, sent, err) := Reference.run_until_failure B reqs2 s1 in
     (s2, (reqs1 ++ sent)%list, err)).
Proof.
  revert s. induction reqs1 as [|q reqs1 IH]; simpl; intros s H.
  - injection H as ->.
    destruct (Reference.run_until_failure B reqs2 s1) as [[s2 sent] err].
    reflexivity.
  - destruct (run B q s) as [s' [d|e]]; [|discriminate].
    destruct (Reference.run_until_failure B reqs1 s') as [[s2 sent2] err] eqn:Hr.
    injection H as -> Hs ->. rewrite Hs in Hr. rewrite (IH s' Hr).
    destruct (Reference.run_until_failure B reqs2 s1) as [[s3 sent3] err3].
    reflexivity.
Qed.

Lemma for_each_assign_reference {S} (B : Backend S) payload ids (w : world S) :
  Mon.for_each ids (assign_one B payload) w
  = (let '(s', sent, err) :=
       Reference.run_until_failure B (List.map (assign_lead payload) ids) (store w) in
     ({| store := s'; issued := (issued w ++ sent)%list |},
      match err with
      | None => Ok tt
      | Some e => Raise e
      end)).
Proof.
  revert w. induction ids as [|cid ids IH]; intros w.
  - simpl. rewrite app_nil_r. destruct w. reflexivity.
  - rewrite for_each_cons, assign_one_run. simpl List.map.
    simpl Reference.run_until_failure.
    destruct (run B (assign_lead payload cid) (store w)) as [s1 [d|e]]; cbn [fst snd].
    + rewrite IH. cbn [store issued].
      destruct (Reference.run_until_failure B _ s1) as [[s2 sent] err].
      rewrite <- app_assoc. reflexivity.
    + reflexivity.
Qed.

(** C5, amended: the handler issues the [assign_lead] calls one candidate id
    at a time, in list order, each on the store the previous call left, and
    stops at the first call that fails.  When every call succeeds it has
    issued exactly one call per id and returns [{assigned: n}], [n] being
    the length of the requested list whatever the calls returned.  When the
    calls before some id succeed and the call for that id fails, the run
    ends there: that call is the last one issued, its error is what the
    handler raises, the ids after it are not attempted and no count is
    returned. *)
Theorem assign_bulk_calls {S} (B : Backend S) payload (w : world S) :
  assign_bulk B payload w
  = (let '(s', sent, err) :=
       Reference.run_until_failure B
         (List.map (assign_lead payload) (candidate_ids payload)) (store w) in
     ({| store := s'; issued := (issued w ++ sent)%list |},
      match err with
      | None => Ok {| assigned := List.length (candidate_ids payload) |}
      | Some e => Raise e
      end)) /\
  (forall before cid after s1 s2 e,
      candidate_ids payload = (before ++ cid :: after)%list ->
      Reference.run_until_failure B (List.map (assign_lead payload) before) (store w)
      = (s1, List.map (assign_lead payload) before, None) ->
      run B (assign_lead payload cid) s1 = (s2, Raise e) ->
      assign_bulk B payload w
      = ({| store := s2;
            issued := (issued w
                       ++ List.map (assign_lead payload) (before ++ [cid]))%list |},
         Raise e)) /\
  (forall s',
      Reference.run_until_failure B
        (List.map (assign_lead payload) (candidate_ids payload)) (store w)
      = (s', List.map (assign_lead payload) (candidate_ids payload), None) ->
      assign_bulk B payload w
      = ({| store := s';
            issued := (issued w
                       ++ List.map (assign_lead payload) (candidate_ids payload))%list |},
         Ok {| assigned := List.length (candidate_ids payload) |})).
Proof.
  assert (Hrun : assign_bulk B payload w
    = (let '(s', sent, err) :=
         Reference.run_until_failure B
           (List.map (assign_lead payload) (candidate_ids payload)) (store w) in
       ({| store := s'; issued := (issued w ++ sent)%list |},
        match err with
        | None => Ok {| assigned := List.length (candidate_ids payload) |}
        | Some e => Raise e
        end))).
  { unfold assign_bulk, Mon.bind, Mon.ret. rewrite for_each_assign_reference.
    destruct (Reference.run_until_failure B _ (store w)) as [[s' sent] [e|]];
      reflexivity. }
  split; [exact Hrun|]. split.
  - intros before cid after s1 s2 e Hids Hbefore Hfail.
    rewrite Hrun, Hids, List.map_app.
    rewrite (run_until_failure_app B _ _ (store w) s1 Hbefore).
    simpl. rewrite Hfail. rewrite List.map_app. reflexivity.
  - intros s' Hall. rewrite Hrun, Hall. reflexivity.
Qed.

Lemma assign_bulk_calls_witness :
  assign_bulk Fixture.rejects_11 Fixture.move_three Fixture.w0
  = ({| store := tt;
        issued := List.map (assign_lead Fixture.move_three)
                    ([10%Z] ++ [11%Z])%list |},
     Raise (APIError "assign_lead failed")).
Proof.
  exact (proj1 (proj2 (assign_bulk_calls Fixture.rejects_11 Fixture.move_three
                         Fixture.w0))
           [10%Z] 11%Z [12%Z] tt tt (APIError "assign_lead failed")
           eq_refl eq_refl eq_refl).
Defined.

(** When no call fails, every id gets its call and the count is the length
    of the list. *)
Lemma assign_bulk_all_succeed {S} (B : Backend S) payload (w : world S) :
  (forall cid s, exists s' d, run B (assign_lead payload cid) s = (s', Ok d)) ->
  snd (assign_bulk B payload w)
  = Ok {| assigned := List.length (candidate_ids payload) |} /\
  issued (fst (assign_bulk B payload w))
  = (issued w ++ List.map (assign_lead payload) (candidate_ids payload))%list.
Proof.
  intros Hall.
  destruct (for_each_assign B payload (candidate_ids payload) w)
    as (k & Hk & Hiss & Hres).
  unfold assign_bulk, Mon.bind.
  destruct (Mon.for_each (candidate_ids payload) (assign_one B payload) w)
    as [w' [u|e]]; simpl in *.
  - subst k. rewrite firstn_all in Hiss. auto.
  - destruct Hres as (_ & s & cid & _ & Hc).
    destruct (Hall cid s) as (s' & d & Hd). rewrite Hd in Hc. discriminate.
Qed.

Example assign_bulk_three :
  snd (assign_bulk (Fixture.canned (fun _ => Ok None) (fun _ => Ok None))
         Fixture.move_three Fixture.w0)
  = Ok {| assigned := 3 |}.
Proof. vm_compute. reflexivity. Qed.

(** The two end-to-end scenarios of the aggregates. *)
Example dashboard_scenario :
  snd (get_dashboard
         (Fixture.canned
            (fun _ => Ok (Some [Fixture.lead 80 "fresh";
                                Fixture.lead 50 "bargaining";
                                Fixture.lead 90 "fresh"]))
            (fun _ => Ok None))
         "2024-05-01" "E1" Fixture.w0)
  = Ok {| summary := {| total_assigned := 3; hot_leads := 2;
                        followups_today := 0; fresh := 2; bargainers := 1 |} |}.
Proof. vm_compute. reflexivity. Qed.

Example performance_scenario :
  snd (exec_perf
         (Fixture.canned
            (fun q => if decide (q = calls_query "E1")
                      then Ok (Some [Fixture.call "connected";
                                     Fixture.call "not_lifted";
                                     Fixture.call "connected"])
                      else Ok (Some [Fixture.call "offer"]))
            (fun _ => Ok None))
         "E1" Fixture.w0)
  = Ok {| calls := 3; connected := 2; not_lifted := 1; offers_sent := 1 |}.
Proof. vm_compute. reflexivity. Qed.

(** ** More about the dashboard summary *)

Lemma count_le_length {A} (p : A -> bool) l :
  (Spec.count p l <= List.length l)%nat.
Proof. induction l as [|x l IH]; simpl; [lia|]. destruct (p x); lia. Qed.

Lemma count_disjoint {A} (p q : A -> bool) l :
  (forall x, p x = true -> q x = false) ->
  (Spec.count p l + Spec.count q l <= List.length l)%nat.
Proof.
  intros Hpq. induction l as [|x l IH]; simpl; [lia|].
  destruct (p x) eqn:Hp; [rewrite (Hpq x Hp)|destruct (q x)]; lia.
Qed.

Lemma count_perm {A} (p : A -> bool) l l' :
  Permutation l l' -> Spec.count p l = Spec.count p l'.
Proof. induction 1; simpl; lia. Qed.

Lemma heat_score_ok_dec r : {Spec.heat_score_ok r} + {~ Spec.heat_score_ok r}.
Proof.
  unfold Spec.heat_score_ok.
  destruct (r !! "lead_heat_score") as [v|]; [|left; exact I].
  destruct (Py.as_number v) as [n|]; [left; eauto|right].
  intros [n Hn]. discriminate.
Qed.

Lemma first_bad_heat rows :
  Forall Spec.heat_score_ok rows \/
  exists l1 r l2,
    rows = (l1 ++ r :: l2)%list /\ Forall Spec.heat_score_ok l1 /\
    ~ Spec.heat_score_ok r.
Proof.
  induction rows as [|r rows IH]; [left; constructor|].
  destruct (heat_score_ok_dec r) as [Hr|Hr].
  - destruct IH as [Hall|(l1 & b & l2 & -> & Hl1 & Hb)].
    + left. constructor; assumption.
    + right. exists (r :: l1), b, l2. split; [reflexivity|].
      split; [constructor; assumption|exact Hb].
  - right. exists [], r, rows. split; [reflexivity|]. split; [constructor|exact Hr].
Qed.

(** The dashboard summary either has every count, or raises [TypeError];
    it raises exactly when some row carries a heat score that is not a
    number (a null column, a text). *)
Theorem dashboard_summary_outcome today rows :
  (Forall Spec.heat_score_ok rows /\
   dashboard_summary today rows = Ok {| summary := {|
     total_assigned := List.length rows;
     hot_leads := Spec.count (fun r => (70 <=? Spec.heat_score r)%Z) rows;
     followups_today := Spec.count (Spec.due_on today) rows;
     fresh := Spec.count (Spec.has_lead_status "fresh") rows;
     bargainers := Spec.count (Spec.has_lead_status "bargaining") rows |} |})
  \/
  (Exists (fun r => ~ Spec.heat_score_ok r) rows /\
   dashboard_summary today rows = Raise TypeError).
Proof.
  destruct (first_bad_heat rows) as [Hall|(l1 & r & l2 & -> & Hl1 & Hr)].
  - left. split; [exact Hall|]. apply dashboard_summary_ok, Hall.
  - right. split.
    + apply Exists_app. right. constructor. exact Hr.
    + apply dashboard_summary_heat_not_number; assumption.
Qed.

Lemma dashboard_summary_ok_inv today rows d :
  dashboard_summary today rows = Ok d -> Forall Spec.heat_score_ok rows.
Proof.
  intros Hd. destruct (first_bad_heat rows) as [Hall|(l1 & r & l2 & -> & Hl1 & Hr)].
  - exact Hall.
  - rewrite (dashboard_summary_heat_not_number today l1 r l2 Hl1 Hr) in Hd.
    discriminate.
Qed.

(** The order in which the store delivers the rows never matters to the
    dashboard: permuted rows give the same summary, or the same error. *)
Theorem dashboard_summary_permutation today rows rows' :
  Permutation rows rows' ->
  dashboard_summary today rows = dashboard_summary today rows'.
Proof.
  intros Hperm.
  destruct (first_bad_heat rows) as [Hall|(l1 & r & l2 & -> & Hl1 & Hr)].
  - assert (Hall' : Forall Spec.heat_score_ok rows')
      by (eapply Permutation_Forall; eassumption).
    rewrite !dashboard_summary_ok by assumption.
    rewrite (Permutation_length Hperm).
    rewrite (count_perm _ _ _ Hperm), (count_perm (Spec.due_on today) _ _ Hperm).
    rewrite (count_perm (Spec.has_lead_status "fresh") _ _ Hperm).
    rewrite (count_perm (Spec.has_lead_status "bargaining") _ _ Hperm).
    reflexivity.
  - rewrite (dashboard_summary_heat_not_number today l1 r l2 Hl1 Hr).
    destruct (first_bad_heat rows') as [Hall'|(l1' & r' & l2' & -> & Hl1' & Hr')].
    + exfalso. apply Hr.
      assert (Hin : In r (l1 ++ r :: l2)) by (apply in_elt).
      rewrite List.Forall_forall in Hall'. apply Hall'.
      eapply Permutation_in; eassumption.
    + symmetry. apply dashboard_summary_heat_not_number; assumption.
Qed.

Lemma dashboard_summary_permutation_witness :
  dashboard_summary "2024-05-01"
    [Fixture.lead 80 "fresh"; Fixture.lead 50 "bargaining"; Fixture.lead 90 "fresh"]
  = dashboard_summary "2024-05-01"
      [Fixture.lead 90 "fresh"; Fixture.lead 80 "fresh"; Fixture.lead 50 "bargaining"].
Proof.
  apply dashboard_summary_permutation.
  apply Permutation_sym, (Permutation_cons_app [_; _] []). reflexivity.
Defined.

(** The summary of two batches of rows taken together is the field by
    field sum of their summaries. *)
Theorem dashboard_summary_app today rows1 rows2 d1 d2 :
  dashboard_summary today rows1 = Ok d1 ->
  dashboard_summary today rows2 = Ok d2 ->
  dashboard_summary today (rows1 ++ rows2) = Ok (Shape.add_summary d1 d2).
Proof.
  intros H1 H2.
  pose proof (dashboard_summary_ok_inv _ _ _ H1) as Hok1.
  pose proof (dashboard_summary_ok_inv _ _ _ H2) as Hok2.
  rewrite dashboard_summary_ok in H1, H2 by assumption.
  injection H1 as <-. injection H2 as <-.
  rewrite dashboard_summary_ok by (apply Forall_app; split; assumption).
  unfold Shape.add_summary. simpl. rewrite !count_app, length_app. reflexivity.
Qed.

Lemma dashboard_summary_app_witness :
  dashboard_summary "2024-05-01"
    ([Fixture.lead 80 "fresh"] ++ [Fixture.lead 50 "bargaining"; Fixture.lead 90 "fresh"])
  = Ok {| summary := {| total_assigned := 3; hot_leads := 2;
                        followups_today := 0; fresh := 2; bargainers := 1 |} |}.
Proof.
  exact (dashboard_summary_app "2024-05-01" [Fixture.lead 80 "fresh"]
           [Fixture.lead 50 "bargaining"; Fixture.lead 90 "fresh"]
           {| summary := {| total_assigned := 1; hot_leads := 1;
                            followups_today := 0; fresh := 1; bargainers := 0 |} |}
           {| summary := {| total_assigned := 2; hot_leads := 1;
                            followups_today := 0; fresh := 1; bargainers := 1 |} |}
           eq_refl eq_refl).
Defined.

(** Whenever the dashboard handler answers, no count exceeds the number of
    assigned leads, and the fresh and the bargaining leads together do not
    either: no lead is counted in both. *)
Theorem get_dashboard_bounds {S} (B : Backend S) today executive_id
    (w : world S) d :
  snd (get_dashboard B today executive_id w) = Ok d ->
  (hot_leads (summary d) <= total_assigned (summary d))%nat /\
  (followups_today (summary d) <= total_assigned (summary d))%nat /\
  (fresh (summary d) + bargainers (summary d) <= total_assigned (summary d))%nat.
Proof.
  destruct (run B (dashboard_query executive_id) (store w)) as [s' res] eqn:Hrun.
  rewrite (get_dashboard_run B today executive_id w s' res Hrun).
  destruct res as [result|e]; simpl; [|discriminate].
  intros Hd. pose proof (dashboard_summary_ok_inv _ _ _ Hd) as Hok.
  rewrite dashboard_summary_ok in Hd by exact Hok. injection Hd as <-. simpl.
  split; [apply count_le_length|]. split; [apply count_le_length|].
  apply count_disjoint. intros r Hr. unfold Spec.has_lead_status in *.
  apply bool_decide_eq_true in Hr. apply bool_decide_eq_false.
  rewrite Hr. discriminate.
Qed.

Lemma get_dashboard_bounds_witness :
  let B := Fixture.canned
             (fun _ => Ok (Some [Fixture.lead 80 "fresh";
                                 Fixture.lead 50 "bargaining";
                                 Fixture.lead 90 "fresh"]))
             (fun _ => Ok None) in
  let d := {| summary := {| total_assigned := 3; hot_leads := 2;
                            followups_today := 0; fresh := 2; bargainers := 1 |} |} in
  (hot_leads (summary d) <= total_assigned (summary d))%nat /\
  (followups_today (summary d) <= total_assigned (summary d))%nat /\
  (fresh (summary d) + bargainers (summary d) <= total_assigned (summary d))%nat.
Proof.
  intros B d.
  exact (get_dashboard_bounds B "2024-05-01" "E1" Fixture.w0 d eq_refl).
Defined.

Lemma no_data_summaries_witness :
  let B := Fixture.canned (fun _ => Ok None) (fun _ => Ok None) in
  snd (get_dashboard B "2024-05-01" "E1" Fixture.w0)
  = Ok {| summary := {| total_assigned := 0; hot_leads := 0;
                        followups_today := 0; fresh := 0; bargainers := 0 |} |} /\
  snd (exec_perf B "E1" Fixture.w0) = Raise TypeError.
Proof.
  intros B.
  destruct (no_data_summaries B "2024-05-01" "E1" Fixture.w0 tt tt None) as [Hd Hp].
  split; [exact (Hd eq_refl)|exact (Hp eq_refl eq_refl)].
Defined.

(** ** More about the performance summary *)

Lemma first_missing_action (cs : list row) :
  Forall Shape.has_action_key cs \/
  exists l1 c l2,
    cs = (l1 ++ c :: l2)%list /\ Forall Shape.has_action_key l1 /\
    c !! "action_type" = None.
Proof.
  induction cs as [|c cs IH]; [left; constructor|].
  destruct (c !! "action_type") as [v|] eqn:Hc.
  - destruct IH as [Hall|(l1 & b & l2 & -> & Hl1 & Hb)].
    + left. constructor; [exists v; exact Hc|exact Hall].
    + right. exists (c :: l1), b, l2. split; [reflexivity|].
      split; [constructor; [exists v; exact Hc|exact Hl1]|exact Hb].
  - right. exists [], c, cs. split; [reflexivity|]. split; [constructor|exact Hc].
Qed.

(** What the performance summary does on every input.  It has its four
    counts when both responses carry rows and every call-log row has the
    [action_type] key.  It raises [TypeError] when the call-log response
    has no data, [KeyError] when a call-log row lacks the key, and
    [TypeError] when only the offers response has no data. *)
Theorem perf_summary_outcome (calls_data offers_data : option (list row)) :
  match perf_summary calls_data offers_data with
  | Ok p =>
      exists cs os,
        calls_data = Some cs /\ offers_data = Some os /\
        Forall Shape.has_action_key cs /\
        p = {| calls := List.length cs;
               connected := Spec.count (Spec.has_action_type "connected") cs;
               not_lifted := Spec.count (Spec.has_action_type "not_lifted") cs;
               offers_sent := List.length os |}
  | Raise e =>
      (calls_data = None /\ e = TypeError) \/
      (exists cs, calls_data = Some cs /\
                  Exists (fun c : row => c !! "action_type" = None) cs /\
                  e = KeyError "action_type") \/
      (exists cs, calls_data = Some cs /\ Forall Shape.has_action_key cs /\
                  offers_data = None /\ e = TypeError)
  end.
Proof.
  destruct calls_data as [cs|]; [|simpl; left; auto].
  destruct (first_missing_action cs) as [Hall|(l1 & c & l2 & -> & Hl1 & Hc)].
  - destruct offers_data as [os|].
    + rewrite (perf_summary_ok cs os Hall). exists cs, os. auto.
    + unfold perf_summary. simpl.
      rewrite (comprehension_filter (has_action "connected")
                 (Spec.has_action_type "connected")).
      2:{ eapply List.Forall_impl; [|exact Hall]. intros x Hx. apply has_action_spec, Hx. }
      simpl.
      rewrite (comprehension_filter (has_action "not_lifted")
                 (Spec.has_action_type "not_lifted")).
      2:{ eapply List.Forall_impl; [|exact Hall]. intros x Hx. apply has_action_spec, Hx. }
      simpl. right. right. exists cs. auto.
  - rewrite (perf_summary_missing_action l1 c l2 offers_data Hl1 Hc).
    right. left. exists (l1 ++ c :: l2)%list. split; [reflexivity|].
    split; [|reflexivity]. apply Exists_app. right. constructor. exact Hc.
Qed.

Lemma perf_summary_ok_inv (calls_data offers_data : option (list row)) p :
  perf_summary calls_data offers_data = Ok p ->
  exists cs os,
    calls_data = Some cs /\ offers_data = Some os /\
    p = {| calls := List.length cs;
           connected := Spec.count (Spec.has_action_type "connected") cs;
           not_lifted := Spec.count (Spec.has_action_type "not_lifted") cs;
           offers_sent := List.length os |}.
Proof.
  destruct calls_data as [cs|]; [|discriminate].
  destruct (first_missing_action cs) as [Hall|(l1 & c & l2 & -> & Hl1 & Hc)].
  - destruct offers_data as [os|].
    + rewrite (perf_summary_ok cs os Hall). intros H. injection H as <-.
      exists cs, os. auto.
    + unfold perf_summary. simpl.
      rewrite (comprehension_filter (has_action "connected")
                 (Spec.has_action_type "connected")).
      2:{ eapply List.Forall_impl; [|exact Hall]. intros x Hx. apply has_action_spec, Hx. }
      simpl.
      rewrite (comprehension_filter (has_action "not_lifted")
                 (Spec.has_action_type "not_lifted")).
      2:{ eapply List.Forall_impl; [|exact Hall]. intros x Hx. apply has_action_spec, Hx. }
      simpl. discriminate.
  - rewrite (perf_summary_missing_action l1 c l2 offers_data Hl1 Hc). discriminate.
Qed.

Lemma exec_perf_cases {S} (B : Backend S) executive_id (w : world S) :
  (exists s e, snd (run B (calls_query executive_id) s) = Raise e /\
               snd (exec_perf B executive_id w) = Raise e) \/
  (exists s e, snd (run B (offers_query executive_id) s) = Raise e /\
               snd (exec_perf B executive_id w) = Raise e) \/
  exists cs os, snd (exec_perf B executive_id w) = perf_summary cs os.
Proof.
  unfold exec_perf, Mon.bind, execute, Mon.lift.
  destruct (run B (calls_query executive_id) (store w)) as [s1 [cs|e]] eqn:H1; simpl.
  - destruct (run B (offers_query executive_id) s1) as [s2 [os|e]] eqn:H2; simpl.
    + right. right. exists cs, os. reflexivity.
    + right. left. exists s1, e. rewrite H2. auto.
  - left. exists (store w), e. rewrite H1. auto.
Qed.

(** Whenever the performance handler answers, the connected and the
    unanswered calls together do not exceed the calls: no call is counted
    in both. *)
Theorem exec_perf_bounds {S} (B : Backend S) executive_id (w : world S) p :
  snd (exec_perf B executive_id w) = Ok p ->
  (connected p + not_lifted p <= calls p)%nat.
Proof.
  intros Hp.
  destruct (exec_perf_cases B executive_id w)
    as [(s & e & _ & He)|[(s & e & _ & He)|(cs & os & Hs)]].
  - rewrite He in Hp. discriminate.
  - rewrite He in Hp. discriminate.
  - rewrite Hs in Hp.
    destruct (perf_summary_ok_inv cs os p Hp) as (rows & offered & _ & _ & ->).
    simpl. apply count_disjoint. intros c Hc. unfold Spec.has_action_type in *.
    apply bool_decide_eq_true in Hc. apply bool_decide_eq_false.
    rewrite Hc. discriminate.
Qed.

Lemma exec_perf_bounds_witness :
  let B := Fixture.canned
             (fun q => if decide (q = calls_query "E1")
                       then Ok (Some [Fixture.call "connected";
                                      Fixture.call "not_lifted";
                                      Fixture.call "busy"])
                       else Ok (Some []))
             (fun _ => Ok None) in
  snd (exec_perf B "E1" Fixture.w0)
  = Ok {| calls := 3; connected := 1; not_lifted := 1; offers_sent := 0 |} /\
  (connected {| calls := 3; connected := 1; not_lifted := 1; offers_sent := 0 |}
   + not_lifted {| calls := 3; connected := 1; not_lifted := 1; offers_sent := 0 |}
   <= calls {| calls := 3; connected := 1; not_lifted := 1; offers_sent := 0 |})%nat.
Proof.
  intros B. split; [reflexivity|].
  exact (exec_perf_bounds B "E1" Fixture.w0
           {| calls := 3; connected := 1; not_lifted := 1; offers_sent := 0 |}
           eq_refl).
Defined.

(** ** [sorted] on arbitrary keys *)

Lemma lt_ok_classes a b c :
  Py.lt a b = Ok c ->
  (exists s t, a = VStr s /\ b = VStr t) \/
  (is_Some (Py.as_number a) /\ is_Some (Py.as_number b)).
Proof.
  destruct a, b; simpl; intros H; try discriminate; eauto 6.
Qed.

Lemma lt_raises a b e : Py.lt a b = Raise e -> e = TypeError.
Proof. destruct a, b; simpl; intros H; congruence. Qed.

Lemma lt_numbers a b :
  is_Some (Py.as_number a) -> is_Some (Py.as_number b) ->
  exists c, Py.lt a b = Ok c.
Proof.
  intros [x Hx] [y Hy]. destruct a, b; simpl in *; try discriminate; eauto.
Qed.

Section AnyKeys.

Context {A : Type} (key : A -> value).

Local Abbreviation text x := (exists s, key x = VStr s).
Local Abbreviation number x := (is_Some (Py.as_number (key x))).

Lemma insert_perm x l l' :
  PySort.insert key x l = Ok l' -> Permutation (x :: l) l'.
Proof.
  revert l'. induction l as [|y l IH]; simpl; intros l' H.
  - injection H as <-. reflexivity.
  - destruct (Py.lt (key y) (key x)) as [[|]|e]; simpl in H; try discriminate.
    + destruct (PySort.insert key x l) as [r|e]; simpl in H; [|discriminate].
      injection H as <-. rewrite perm_swap. constructor. apply IH. reflexivity.
    + injection H as <-. reflexivity.
Qed.

Lemma sort_asc_perm l l' : PySort.sort_asc key l = Ok l' -> Permutation l l'.
Proof.
  revert l'. induction l as [|x l IH]; simpl; intros l' H.
  - injection H as <-. reflexivity.
  - destruct (PySort.sort_asc key l) as [s|e]; simpl in H; [|discriminate].
    rewrite <- (insert_perm x s l' H). constructor. apply IH. reflexivity.
Qed.

Lemma sorted_perm reverse l l' :
  PySort.sorted key reverse l = Ok l' -> Permutation l l'.
Proof.
  unfold PySort.sorted. destruct reverse; [|apply sort_asc_perm].
  destruct (PySort.sort_asc key (rev l)) as [s|e] eqn:Hs; simpl; [|discriminate].
  intros H. injection H as <-. apply sort_asc_perm in Hs.
  rewrite <- (Permutation_rev s), <- Hs. apply Permutation_rev.
Qed.

Lemma insert_raises x l e : PySort.insert key x l = Raise e -> e = TypeError.
Proof.
  induction l as [|y l IH]; simpl; [discriminate|].
  destruct (Py.lt (key y) (key x)) as [[|]|e'] eqn:Hlt; simpl.
  - destruct (PySort.insert key x l) as [r|e'']; simpl; [discriminate|].
    intros H. injection H as <-. apply IH. reflexivity.
  - discriminate.
  - intros H. injection H as <-. eapply lt_raises, Hlt.
Qed.

Lemma sort_asc_raises l e : PySort.sort_asc key l = Raise e -> e = TypeError.
Proof.
  induction l as [|x l IH]; simpl; [discriminate|].
  destruct (PySort.sort_asc key l) as [s|e']; simpl.
  - apply insert_raises.
  - intros H. injection H as <-. apply IH. reflexivity.
Qed.

Lemma insert_numbers x l :
  number x -> Forall (fun y => number y) l -> exists l', PySort.insert key x l = Ok l'.
Proof.
  intros Hx Hl. induction Hl as [|y l Hy Hl IH]; simpl; [eauto|].
  destruct (lt_numbers (key y) (key x) Hy Hx) as [c ->]. simpl.
  destruct c; [|eauto]. destruct IH as [l' ->]. simpl. eauto.
Qed.

Lemma sort_asc_numbers l :
  Forall (fun y => number y) l -> exists l', PySort.sort_asc key l = Ok l'.
Proof.
  induction 1 as [|x l Hx Hl IH]; simpl; [eauto|].
  destruct IH as [s Hs]. rewrite Hs. simpl. apply insert_numbers; [exact Hx|].
  eapply Permutation_Forall; [apply sort_asc_perm, Hs|exact Hl].
Qed.

Lemma sort_asc_same_class l l' :
  PySort.sort_asc key l = Ok l' ->
  (List.length l <= 1)%nat \/
  Forall (fun y => text y) l \/ Forall (fun y => number y) l.
Proof.
  revert l'. induction l as [|x l IH]; simpl; intros l' H; [left; lia|].
  destruct (PySort.sort_asc key l) as [s|e] eqn:Hs; simpl in H; [|discriminate].
  destruct l as [|z l0]; [left; simpl; lia|]. right.
  pose proof (sort_asc_perm _ _ Hs) as Hperm.
  destruct s as [|y s']; [apply Permutation_sym, Permutation_nil in Hperm; discriminate|].
  assert (Hy : In y (z :: l0))
    by (eapply Permutation_in; [apply Permutation_sym, Hperm|left; reflexivity]).
  simpl in H. destruct (Py.lt (key y) (key x)) as [c|e] eqn:Hlt; [|discriminate].
  apply lt_ok_classes in Hlt.
  destruct (IH _ eq_refl) as [Hlen|[Htext|Hnum]].
  - destruct l0; [|simpl in Hlen; lia]. destruct Hy as [->|[]].
    destruct Hlt as [(s1 & t1 & Hy1 & Hx1)|[Hy1 Hx1]].
    + left. repeat constructor; eauto.
    + right. repeat constructor; eauto.
  - left. constructor; [|exact Htext].
    rewrite List.Forall_forall in Htext. destruct (Htext y Hy) as [sy Hsy].
    destruct Hlt as [(s1 & t1 & _ & Hx1)|[[n Hn] _]]; [eauto|].
    rewrite Hsy in Hn. discriminate.
  - right. constructor; [|exact Hnum].
    rewrite List.Forall_forall in Hnum. destruct (Hnum y Hy) as [ny Hny].
    destruct Hlt as [(s1 & t1 & Hy1 & _)|[_ Hx1]]; [|exact Hx1].
    rewrite Hy1 in Hny. discriminate.
Qed.

End AnyKeys.

Lemma text_keys_created_at_ok rows :
  Shape.text_keys rows <-> Forall Spec.created_at_ok rows.
Proof.
  unfold Shape.text_keys. rewrite !List.Forall_forall.
  split; intros H r Hr; specialize (H r Hr);
    unfold Spec.created_at_ok, created_at, Py.get_or in *;
    destruct (r !! "created_at") as [v|]; simpl in *; eauto.
Qed.

(** The "newest" sort answers exactly on the lists [sorted] can order: at
    most one row, or creation timestamps that are all text, or all
    numbers.  Its answer is a permutation of the rows.  On any other list,
    such as two rows with a null timestamp, it raises [TypeError]. *)
Theorem sort_newest_outcome rows :
  match sort_newest rows with
  | Ok out => Permutation rows out /\ Shape.sortable rows
  | Raise e => e = TypeError /\ ~ Shape.sortable rows
  end.
Proof.
  unfold sort_newest, PySort.sorted.
  destruct (PySort.sort_asc created_at (rev rows)) as [s|e] eqn:Hs; simpl.
  - split.
    + apply sort_asc_perm in Hs.
      rewrite <- (Permutation_rev s), <- Hs. apply Permutation_rev.
    + apply sort_asc_same_class in Hs. unfold Shape.sortable.
      rewrite length_rev in Hs.
      destruct Hs as [H|[H|H]]; [auto| |]; apply Forall_rev in H;
        rewrite rev_involutive in H; auto.
  - split; [eapply sort_asc_raises, Hs|].
    intros [Hlen|[Htext|Hnum]].
    + destruct rows as [|a [|b rows]]; try discriminate. simpl in Hlen. lia.
    + apply text_keys_created_at_ok in Htext.
      destruct (sort_newest_text rows Htext) as (out & Hout & _).
      unfold sort_newest, PySort.sorted in Hout. rewrite Hs in Hout. discriminate.
    + destruct (sort_asc_numbers created_at (rev rows)) as [l' Hl'];
        [apply Forall_rev, Hnum|].
      rewrite Hs in Hl'. discriminate.
Qed.

Lemma filter_created_on_head t a l1 l2 :
  List.filter (Spec.created_on t) (a :: l1) = List.filter (Spec.created_on t) (a :: l2) ->
  List.filter (Spec.created_on t) l1 = List.filter (Spec.created_on t) l2.
Proof.
  simpl. destruct (Spec.created_on t a); [|tauto]. intros H. injection H. tauto.
Qed.

Lemma created_on_self a : Spec.created_on (Spec.created_text a) a = true.
Proof. unfold Spec.created_on. apply String.eqb_refl. Qed.

Lemma newest_first_head_max a l b :
  StronglySorted Spec.newest_first (a :: l) -> In b (a :: l) ->
  String.le (Spec.created_text b) (Spec.created_text a).
Proof.
  intros Hs [<-|Hb]; [reflexivity|].
  apply StronglySorted_inv in Hs as [_ Hall].
  rewrite List.Forall_forall in Hall. apply Hall, Hb.
Qed.

Lemma stable_order_unique (l1 l2 : list row) :
  StronglySorted Spec.newest_first l1 ->
  StronglySorted Spec.newest_first l2 ->
  (forall t, List.filter (Spec.created_on t) l1 = List.filter (Spec.created_on t) l2) ->
  l1 = l2.
Proof.
  revert l2. induction l1 as [|a l1 IH]; intros l2 H1 H2 Hf.
  - destruct l2 as [|b l2]; [reflexivity|].
    specialize (Hf (Spec.created_text b)). simpl in Hf.
    rewrite created_on_self in Hf. discriminate.
  - destruct l2 as [|b l2].
    { specialize (Hf (Spec.created_text a)). simpl in Hf.
      rewrite created_on_self in Hf. discriminate. }
    assert (Ha : In a (b :: l2)).
    { pose proof (Hf (Spec.created_text a)) as Hfa.
      assert (Hin : In a (List.filter (Spec.created_on (Spec.created_text a)) (a :: l1)))
        by (apply List.filter_In; split; [left; reflexivity|apply created_on_self]).
      rewrite Hfa in Hin. apply List.filter_In in Hin. tauto. }
    assert (Hb : In b (a :: l1)).
    { pose proof (Hf (Spec.created_text b)) as Hfb.
      assert (Hin : In b (List.filter (Spec.created_on (Spec.created_text b)) (b :: l2)))
        by (apply List.filter_In; split; [left; reflexivity|apply created_on_self]).
      rewrite <- Hfb in Hin. apply List.filter_In in Hin. tauto. }
    assert (Heq : Spec.created_text a = Spec.created_text b).
    { apply (anti_symm String.le).
      - apply (newest_first_head_max b l2 a H2 Ha).
      - apply (newest_first_head_max a l1 b H1 Hb). }
    assert (Hab : a = b).
    { pose proof (Hf (Spec.created_text a)) as Hfa. simpl in Hfa.
      rewrite created_on_self in Hfa. rewrite Heq in Hfa at 2.
      rewrite created_on_self in Hfa. injection Hfa. tauto. }
    subst b. f_equal. apply IH.
    + apply StronglySorted_inv in H1. tauto.
    + apply StronglySorted_inv in H2. tauto.
    + intros t. apply (filter_created_on_head t a), Hf.
Qed.

(** The "newest" sort returns the one list that is the rows newest first
    with ties kept in input order: any list meeting that description is
    what the sort returns. *)
Theorem sort_newest_unique rows out :
  Forall Spec.created_at_ok rows ->
  Spec.stable_newest_first rows out ->
  sort_newest rows = Ok out.
Proof.
  intros Hok (_ & Hss & Hst).
  destruct (sort_newest_text rows Hok) as (out' & Hout & (_ & Hss' & Hst') & _).
  rewrite Hout. f_equal. apply stable_order_unique; [assumption..|].
  intros t. rewrite Hst, Hst'. reflexivity.
Qed.

Lemma sort_newest_unique_witness :
  sort_newest Fixture.three_leads
  = Ok [Fixture.created 2 "2024-03-05T10:30:00";
        Fixture.created 1 "2024-01-02T08:00:00";
        Fixture.created 3 "2024-01-02T08:00:00"].
Proof.
  apply sort_newest_unique.
  - repeat constructor; vm_compute; eauto.
  - split; [|split].
    + apply (Permutation_cons_app [_] [_]). reflexivity.
    + repeat constructor; vm_compute; exact I.
    + intros t. unfold Fixture.three_leads. cbn [List.filter].
      unfold Spec.created_on.
      change (Spec.created_text (Fixture.created 1 "2024-01-02T08:00:00"))
        with "2024-01-02T08:00:00".
      change (Spec.created_text (Fixture.created 2 "2024-03-05T10:30:00"))
        with "2024-03-05T10:30:00".
      change (Spec.created_text (Fixture.created 3 "2024-01-02T08:00:00"))
        with "2024-01-02T08:00:00".
      destruct (String.eqb_spec "2024-03-05T10:30:00" t) as [E1|_];
        destruct (String.eqb_spec "2024-01-02T08:00:00" t) as [E2|_];
        try reflexivity.
      rewrite <- E1 in E2. discriminate E2.
Defined.

Lemma le_empty_string s : String.le s "" -> s = "".
Proof.
  intros H. apply (anti_symm String.le); [exact H|].
  unfold String.le. destruct s; exact I.
Qed.

(** In the "newest" order the rows without a creation timestamp come last:
    behind a row whose timestamp is missing or empty there are only such
    rows. *)
Theorem sort_newest_missing_last rows out l1 a l2 :
  Forall Spec.created_at_ok rows ->
  sort_newest rows = Ok out ->
  out = (l1 ++ a :: l2)%list ->
  Spec.created_text a = "" ->
  Forall (fun b => Spec.created_text b = "") l2.
Proof.
  intros Hok Hout -> Ha.
  destruct (sort_newest_text rows Hok) as (out' & Hout' & (_ & Hss & _) & _).
  rewrite Hout in Hout'. injection Hout' as <-.
  apply StronglySorted_app in Hss as (_ & _ & Hs).
  apply StronglySorted_inv in Hs as [_ Hall].
  eapply List.Forall_impl; [|exact Hall]. intros b Hb.
  unfold Spec.newest_first in Hb. rewrite Ha in Hb. apply le_empty_string, Hb.
Qed.

Lemma sort_newest_missing_last_witness :
  Forall (fun b => Spec.created_text b = "")
    [({["id" := VInt 9]} : row)].
Proof.
  apply (sort_newest_missing_last
           [{["id" := VInt 7]}; Fixture.created 1 "2024-01-02T08:00:00";
            {["id" := VInt 9]}]
           [Fixture.created 1 "2024-01-02T08:00:00"; {["id" := VInt 7]};
            {["id" := VInt 9]}]
           [Fixture.created 1 "2024-01-02T08:00:00"] {["id" := VInt 7]}
           [{["id" := VInt 9]}]).
  - repeat constructor; vm_compute; eauto.
  - vm_compute. reflexivity.
  - reflexivity.
  - reflexivity.
Defined.

(** Neither lead list ever drops, repeats or invents a row: whatever the
    sort directive, an answer carries a permutation of the rows the store
    delivered, and [lead_count] is their number. *)
Theorem lead_lists_keep_rows {S} (B : Backend S) today executive_id status
    heat_min follow_up_due sort payload (w wp : world S) s1 s2 res resp out outp :
  run B (lead_list_query today executive_id status heat_min follow_up_due) (store w)
  = (s1, Ok res) ->
  run B (Rpc "get_leads_filtered" (filter_params payload)) (store wp)
  = (s2, Ok resp) ->
  snd (lead_list_get B today executive_id status heat_min follow_up_due sort w)
  = Ok out ->
  snd (lead_list_post B payload wp) = Ok outp ->
  (Permutation (default [] res) (leads out) /\
   lead_count out = List.length (default [] res) /\
   ll_executive_id out = executive_id) /\
  (Permutation (default [] resp) (leads outp) /\
   lead_count outp = List.length (default [] resp) /\
   ll_executive_id outp = fp_executive_id payload).
Proof.
  intros Hget Hpost Hout Houtp.
  rewrite (lead_list_get_run B _ _ _ _ _ _ w s1 _ Hget) in Hout.
  rewrite (lead_list_post_run B payload wp s2 _ Hpost) in Houtp.
  assert (Hshape : forall e srt rows o,
             shape_leads e srt rows = Ok o ->
             Permutation rows (leads o) /\ lead_count o = List.length rows /\
             ll_executive_id o = e).
  { intros e srt rows o. unfold shape_leads.
    destruct (bool_decide (srt = Some "newest")).
    - destruct (sort_newest rows) as [sorted|err] eqn:Hs; simpl; [|discriminate].
      intros H. injection H as <-. simpl.
      unfold sort_newest in Hs. apply sorted_perm in Hs. split; [exact Hs|]. split; [|reflexivity].
      symmetry. apply Permutation_length, Hs.
    - intros H. injection H as <-. simpl. auto. }
  split; eapply Hshape; eassumption.
Qed.

Lemma lead_lists_keep_rows_witness :
  let B := Fixture.canned (fun _ => Ok (Some Fixture.three_leads)) (fun _ => Ok None) in
  exists out,
    snd (lead_list_get B "2024-05-01" "E1" None None None (Some "newest") Fixture.w0)
    = Ok out /\
    Permutation Fixture.three_leads (leads out) /\ lead_count out = 3%nat.
Proof.
  intros B.
  destruct (lead_list_get B "2024-05-01" "E1" None None None (Some "newest") Fixture.w0)
    as [w' [out|e]] eqn:Hrun; [|vm_compute in Hrun; discriminate].
  exists out. split; [reflexivity|].
  destruct (lead_lists_keep_rows B "2024-05-01" "E1" None None None
              (Some "newest") (FilterPayload_defaults "E1") Fixture.w0 Fixture.w0
              tt tt (Some Fixture.three_leads) (Some Fixture.three_leads) out
              {| ll_executive_id := "E1"; lead_count := 3;
                 leads := Fixture.three_leads |}
              eq_refl eq_refl) as [(Hp & Hc & _) _].
  - rewrite Hrun. reflexivity.
  - reflexivity.
  - split; [exact Hp|exact Hc].
Defined.

(** ** The queries the lead lists send *)

(** The query of the simple lead list is the executive scope followed by
    the filters of the optional arguments, in the order status, heat,
    follow-up, and nothing else: a status filter exactly when a non-empty
    status is given, a heat filter exactly when a non-zero [heat_min] is
    given (a negative one included), and the follow-up filter exactly when
    [follow_up_due] is the word "today"; the pattern is the date followed
    by the wildcard. *)
Theorem lead_list_query_filters today executive_id status heat_min follow_up_due :
  exists fs,
    lead_list_query today executive_id status heat_min follow_up_due
    = Select "db_candidates" (FEq "executive_id" (VStr executive_id) :: fs) /\
    fs = (Shape.status_filter status ++ Shape.heat_filter heat_min
          ++ Shape.due_filter today follow_up_due)%list /\
    (List.length fs <= 3)%nat /\
    (forall v, In (FEq "lead_status" v) fs <->
               exists s, status = Some s /\ s <> "" /\ v = VStr s) /\
    (forall v, In (FGte "lead_heat_score" v) fs <->
               exists n, heat_min = Some n /\ n <> 0%Z /\ v = VInt n) /\
    (forall p, In (FLike "follow_up_at" p) fs <->
               follow_up_due = Some "today" /\ p = (today ++ "%")%string).
Proof.
  unfold lead_list_query.
  destruct status as [s|]; simpl;
    [destruct (String.eqb_spec s "") as [Es|Es]; simpl|];
    (destruct heat_min as [n|]; simpl;
     [destruct (Z.eqb_spec n 0) as [En|En]; simpl|]);
    (destruct follow_up_due as [d|]; simpl;
     [destruct (String.eqb_spec d "today") as [Ed|Ed]; simpl|]);
    (eexists; split; [reflexivity|]; split;
     [unfold Shape.status_filter, Shape.heat_filter, Shape.due_filter;
      repeat match goal with
             | H : ?a <> ?b |- context [bool_decide (?a = ?b)] =>
                 rewrite (bool_decide_eq_false_2 (a = b) H)
             | H : ?a <> ?b |- context [bool_decide (Some ?a = Some ?b)] =>
                 rewrite (bool_decide_eq_false_2 (Some a = Some b))
                   by congruence
             end;
      subst; reflexivity|];
     split; [simpl; lia|]);
    simpl; repeat split; intros;
    repeat match goal with
           | H : _ \/ _ |- _ => destruct H
           | H : False |- _ => destruct H
           | H : exists _, _ |- _ => destruct H
           | H : _ /\ _ |- _ => destruct H
           | H : _ = _ |- _ => first [discriminate H | injection H as H; subst]
           end;
    try congruence; eauto 6.
Qed.

(** Every field of a filter payload reaches the remote procedure under its
    own parameter name and can be read back from the parameters; the eight
    parameters are all there is.  The heat bounds are forwarded as given,
    also when the minimum exceeds the maximum. *)
Theorem filter_params_round_trip payload :
  dom (filter_params payload)
  = list_to_set ["p_executive_id"; "p_state"; "p_category"; "p_gender";
                 "p_status"; "p_bargain"; "p_min_heat"; "p_max_heat"] /\
  filter_params payload !! "p_executive_id" = Some (VStr (fp_executive_id payload)) /\
  filter_params payload !! "p_state" = Some (of_str (state payload)) /\
  filter_params payload !! "p_category" = Some (of_str (category payload)) /\
  filter_params payload !! "p_gender" = Some (of_str (gender payload)) /\
  filter_params payload !! "p_status" = Some (of_str (status payload)) /\
  filter_params payload !! "p_bargain" = Some (of_str (bargain_type payload)) /\
  filter_params payload !! "p_min_heat" = Some (of_int (min_heat payload)) /\
  filter_params payload !! "p_max_heat" = Some (of_int (max_heat payload)).
Proof.
  split; [|repeat split; reflexivity].
  unfold filter_params. rewrite !dom_insert_L, dom_empty_L. simpl. set_solver.
Qed.

(** [prospect_percent] is accepted and then ignored: two payloads that
    differ in nothing else make the advanced lead list do the same. *)
Theorem lead_list_post_ignores_prospect {S} (B : Backend S) p q (w : world S) :
  Shape.same_but_prospect p q ->
  lead_list_post B p w = lead_list_post B q w.
Proof.
  destruct p, q. unfold Shape.same_but_prospect. simpl.
  intros (-> & -> & -> & -> & -> & -> & -> & -> & ->). reflexivity.
Qed.

Lemma lead_list_post_ignores_prospect_witness :
  let B := Fixture.canned (fun _ => Ok (Some Fixture.three_leads)) (fun _ => Ok None) in
  lead_list_post B
    {| fp_executive_id := "E1"; state := Some "Kerala"; category := None;
       gender := None; status := None; bargain_type := None;
       min_heat := Some 40%Z; max_heat := Some 100%Z;
       prospect_percent := Some 75%Z; sort_by := Some "newest" |} Fixture.w0
  = lead_list_post B
      {| fp_executive_id := "E1"; state := Some "Kerala"; category := None;
         gender := None; status := None; bargain_type := None;
         min_heat := Some 40%Z; max_heat := Some 100%Z;
         prospect_percent := None; sort_by := Some "newest" |} Fixture.w0.
Proof.
  intros B. apply lead_list_post_ignores_prospect.
  repeat split.
Defined.

(** ** The lead detail and the timeline *)

(** The lead detail sends its three requests in a fixed order (candidate,
    timeline, offers), each on the store the previous one left, and a
    request that raises ends the run with that error and nothing sent after
    it.  The candidate lookup is read only after all three have returned:
    when no candidate matched, the handler has sent all three requests and
    then raises [AttributeError]; otherwise it returns the candidate, the
    timeline and the offers as delivered. *)
Theorem lead_detail_requests_in_order {S} (B : Backend S) id (w : world S) :
  lead_detail B id w
  = match run_single B (SelectMaybeSingle "db_candidates" [FEq "id" (VInt id)])
            (store w) with
    | (s1, Raise e) =>
        ({| store := s1;
            issued := (issued w ++ firstn 1 (Shape.lead_detail_requests id))%list |},
         Raise e)
    | (s1, Ok cand) =>
        match run B (Rpc "get_timeline" {["p_candidate_id" := VInt id]}) s1 with
        | (s2, Raise e) =>
            ({| store := s2;
                issued := (issued w
                           ++ firstn 2 (Shape.lead_detail_requests id))%list |},
             Raise e)
        | (s2, Ok tl) =>
            match run B (Rpc "get_offers_for_candidate"
                           {["p_candidate_id" := VInt id]}) s2 with
            | (s3, Raise e) =>
                ({| store := s3;
                    issued := (issued w ++ Shape.lead_detail_requests id)%list |},
                 Raise e)
            | (s3, Ok ofs) =>
                ({| store := s3;
                    issued := (issued w ++ Shape.lead_detail_requests id)%list |},
                 match cand with
                 | Some c => Ok {| candidate := c; timeline := tl; offers := ofs |}
                 | None => Raise AttributeError
                 end)
            end
        end
    end.
Proof.
  destruct (run_single B _ (store w)) as [s1 [cand|e]] eqn:H1.
  - destruct (run B (Rpc "get_timeline" _) s1) as [s2 [tl|e]] eqn:H2.
    + destruct (run B (Rpc "get_offers_for_candidate" _) s2) as [s3 [ofs|e]] eqn:H3.
      * apply (lead_detail_run B id w s1 s2 s3); assumption.
      * unfold lead_detail, Mon.bind, execute_single, execute,
          Shape.lead_detail_requests.
        rewrite H1. simpl. rewrite H2. simpl. rewrite H3. simpl.
        rewrite <- !app_assoc. reflexivity.
    + unfold lead_detail, Mon.bind, execute_single, execute,
        Shape.lead_detail_requests.
      rewrite H1. simpl. rewrite H2. simpl. rewrite <- !app_assoc. reflexivity.
  - unfold lead_detail, Mon.bind, execute_single, Shape.lead_detail_requests.
    rewrite H1. reflexivity.
Qed.

(** When looking a candidate up leaves the store as it was, the timeline
    inside a lead detail is the answer of the timeline route for the same
    candidate. *)
Theorem timeline_agrees_with_detail {S} (B : Backend S) id (w : world S) c d :
  run_single B (SelectMaybeSingle "db_candidates" [FEq "id" (VInt id)]) (store w)
  = (store w, Ok c) ->
  snd (lead_detail B id w) = Ok d ->
  snd (Route.timeline B id w) = Ok (timeline d).
Proof.
  intros Hc.
  unfold lead_detail, Route.timeline, Mon.bind, execute_single, execute,
    Mon.lift, Mon.ret.
  rewrite Hc. simpl.
  destruct (run B (Rpc "get_timeline" _) (store w)) as [s2 [t|e]]; simpl;
    [|discriminate].
  destruct (run B (Rpc "get_offers_for_candidate" _) s2) as [s3 [o|e]]; simpl;
    [|discriminate].
  destruct c as [found|]; simpl; [|discriminate].
  intros H. injection H as <-. reflexivity.
Qed.

Lemma timeline_agrees_with_detail_witness :
  let B := Fixture.canned (fun _ => Ok (Some Fixture.three_leads))
             (fun _ => Ok (Some (Fixture.lead 80 "fresh"))) in
  snd (lead_detail B 42 Fixture.w0)
  = Ok {| candidate := Fixture.lead 80 "fresh";
          timeline := Some Fixture.three_leads;
          offers := Some Fixture.three_leads |} /\
  snd (Route.timeline B 42 Fixture.w0) = Ok (Some Fixture.three_leads).
Proof.
  intros B. split; [reflexivity|].
  exact (timeline_agrees_with_detail B 42 Fixture.w0
           (Some (Fixture.lead 80 "fresh"))
           {| candidate := Fixture.lead 80 "fresh";
              timeline := Some Fixture.three_leads;
              offers := Some Fixture.three_leads |} eq_refl eq_refl).
Defined.

(** ** The routes that write *)

(** Scheduling a follow-up, changing a status and recording an offer each
    send exactly one remote call.  They acknowledge success whenever the
    call does not raise, whatever it returned, and raise the call's error
    otherwise. *)
Theorem write_routes_acknowledge {S} (B : Backend S) follow change offer
    (w : world S) :
  (issued (fst (Route.schedule_followup B follow w))
   = (issued w ++ [Route.schedule_followup_call follow])%list /\
   snd (Route.schedule_followup B follow w)
   = match snd (run B (Route.schedule_followup_call follow) (store w)) with
     | Ok _ => Ok {| ack_status := "success" |}
     | Raise e => Raise e
     end) /\
  (issued (fst (Route.update_status B change w))
   = (issued w ++ [Route.update_status_call change])%list /\
   snd (Route.update_status B change w)
   = match snd (run B (Route.update_status_call change) (store w)) with
     | Ok _ => Ok {| ack_status := "success" |}
     | Raise e => Raise e
     end) /\
  (issued (fst (Route.send_offer B offer w))
   = (issued w ++ [Route.send_offer_call offer])%list /\
   snd (Route.send_offer B offer w)
   = match snd (run B (Route.send_offer_call offer) (store w)) with
     | Ok _ => Ok {| ack_status := "success" |}
     | Raise e => Raise e
     end).
Proof.
  unfold Route.schedule_followup, Route.update_status, Route.send_offer,
    Mon.bind, execute.
  repeat split;
    match goal with
    | |- context [run B ?q (store w)] =>
        destruct (run B q (store w)) as [s' [r|e]]; reflexivity
    end.
Qed.

(** The parameters of the three remote calls carry the fields of the
    request under the names the procedures expect; each can be read
    back. *)
Theorem write_routes_params follow change offer :
  (exists params,
      Route.schedule_followup_call follow = Rpc "schedule_followup" params /\
      params !! "p_candidate_id" = Some (VInt (fo_candidate_id follow)) /\
      params !! "p_exec" = Some (VStr (fo_executive_id follow)) /\
      params !! "p_time" = Some (VStr (schedule_time follow)) /\
      size params = 3%nat) /\
  (exists params,
      Route.update_status_call change = Rpc "update_lead_status" params /\
      params !! "p_candidate_id" = Some (VInt (st_candidate_id change)) /\
      params !! "p_exec" = Some (VStr (st_executive_id change)) /\
      params !! "p_status" = Some (VStr (st_status change)) /\
      size params = 3%nat) /\
  (exists params,
      Route.send_offer_call offer = Rpc "record_offer_sent" params /\
      params !! "p_candidate_id" = Some (VInt (os_candidate_id offer)) /\
      params !! "p_exec" = Some (VStr (os_executive_id offer)) /\
      params !! "p_offer" = Some (VStr (offer_id offer)) /\
      size params = 3%nat).
Proof.
  repeat split; eexists; (split; [reflexivity|]); repeat split; reflexivity.
Qed.

(** ** The routes that read *)

(** The timeline route hands on the store's answer untouched, a missing
    data field included; the heat map and the follow-up calendar hand on
    the rows in the order delivered and turn a missing data field into the
    empty list.  All three raise the store's error unchanged. *)
Theorem read_routes_pass_through {S} (B : Backend S) candidate_id executive_id
    date (w : world S) :
  snd (Route.timeline B candidate_id w)
  = snd (run B (Rpc "get_timeline" {["p_candidate_id" := VInt candidate_id]})
           (store w)) /\
  snd (Route.state_heatmap B w)
  = match snd (run B (Rpc "state_heatmap" ∅) (store w)) with
    | Ok res => Ok (default [] res)
    | Raise e => Raise e
    end /\
  snd (Route.followups B executive_id date w)
  = match snd (run B (Route.followups_query executive_id date) (store w)) with
    | Ok res => Ok (default [] res)
    | Raise e => Raise e
    end.
Proof.
  unfold Route.timeline, Route.state_heatmap, Route.followups, Mon.bind, execute.
  repeat split;
    match goal with
    | |- context [run B ?q (store w)] =>
        destruct (run B q (store w)) as [s' [r|e]]; reflexivity
    end.
Qed.

(** The follow-up calendar asked for today's date filters exactly as the
    simple lead list does for [follow_up_due=today]: the same executive
    scope and the same date pattern, on its own table. *)
Theorem followups_filter_matches_due_today today executive_id :
  exists fs,
    Route.followups_query executive_id today = Select "db_followups" fs /\
    lead_list_query today executive_id None None (Some "today")
    = Select "db_candidates" fs.
Proof. eexists. split; reflexivity. Qed.

(** ** Splitting a bulk assignment *)

Lemma for_each_app {S A} (l1 l2 : list A) (body : A -> M S unit) (w : world S) :
  Mon.for_each (l1 ++ l2) body w
  = match Mon.for_each l1 body w with
    | (w1, Ok _) => Mon.for_each l2 body w1
    | (w1, Raise e) => (w1, Raise e)
    end.
Proof.
  revert w. induction l1 as [|x l1 IH]; intros w; [reflexivity|].
  simpl. unfold Mon.bind. destruct (body x w) as [w' [u|e]]; [apply IH|reflexivity].
Qed.

Lemma for_each_ext {S A} (l : list A) (f g : A -> M S unit) (w : world S) :
  (forall x w', f x w' = g x w') -> Mon.for_each l f w = Mon.for_each l g w.
Proof.
  intros Hfg. revert w. induction l as [|x l IH]; intros w; [reflexivity|].
  simpl. unfold Mon.bind. rewrite Hfg. destruct (g x w) as [w' [u|e]];
    [apply IH|reflexivity].
Qed.

Lemma assign_one_same_route {S} (B : Backend S) p q cid (w : world S) :
  Shape.same_route p q -> assign_one B p cid w = assign_one B q cid w.
Proof.
  intros (Hf & Ht & Hr). unfold assign_one, assign_lead. rewrite Hf, Ht, Hr.
  reflexivity.
Qed.

(** One bulk assignment of a list of candidates does to the store what two
    assignments of its two halves do one after the other, and reports the
    sum of their counts; if the first half fails the second is not begun. *)
Theorem assign_bulk_split {S} (B : Backend S) first second whole (w : world S) :
  Shape.same_route first whole ->
  Shape.same_route second whole ->
  candidate_ids whole = (candidate_ids first ++ candidate_ids second)%list ->
  assign_bulk B whole w
  = match assign_bulk B first w with
    | (w1, Ok a1) =>
        match assign_bulk B second w1 with
        | (w2, Ok a2) => (w2, Ok {| assigned := assigned a1 + assigned a2 |})
        | (w2, Raise e) => (w2, Raise e)
        end
    | (w1, Raise e) => (w1, Raise e)
    end.
Proof.
  intros H1 H2 Hids. unfold assign_bulk, Mon.bind, Mon.ret.
  rewrite Hids, for_each_app.
  rewrite (for_each_ext (candidate_ids first) (assign_one B whole) (assign_one B first))
    by (intros; symmetry; apply assign_one_same_route, H1).
  destruct (Mon.for_each (candidate_ids first) (assign_one B first) w)
    as [w1 [u|e]]; [|reflexivity].
  rewrite (for_each_ext (candidate_ids second) (assign_one B whole) (assign_one B second))
    by (intros; symmetry; apply assign_one_same_route, H2).
  destruct (Mon.for_each (candidate_ids second) (assign_one B second) w1)
    as [w2 [u2|e]]; [|reflexivity].
  simpl. rewrite length_app. reflexivity.
Qed.

Lemma assign_bulk_split_witness :
  let first := {| assign_from := "A"; assign_to := "B";
                  candidate_ids := [10]%Z; reason := None |} in
  let second := {| assign_from := "A"; assign_to := "B";
                   candidate_ids := [11; 12]%Z; reason := None |} in
  assign_bulk Fixture.rejects_11 Fixture.move_three Fixture.w0
  = match assign_bulk Fixture.rejects_11 first Fixture.w0 with
    | (w1, Ok a1) =>
        match assign_bulk Fixture.rejects_11 second w1 with
        | (w2, Ok a2) => (w2, Ok {| assigned := assigned a1 + assigned a2 |})
        | (w2, Raise e) => (w2, Raise e)
        end
    | (w1, Raise e) => (w1, Raise e)
    end.
Proof.
  intros first second.
  apply (assign_bulk_split Fixture.rejects_11 first second Fixture.move_three
           Fixture.w0); repeat split.
Defined.

(** ** The manager's view and the store's errors *)

Lemma manager_leads_with_profile_witness :
  let B := Fixture.canned (fun _ => Ok (Some Fixture.three_leads))
             (fun _ => Ok (Some {["executive_id" := VStr "E1"]})) in
  snd (manager_leads B "E1" Fixture.w0)
  = Ok {| executive := {| name := VStr ""; assigned_count := 3 |};
          ml_leads := Fixture.three_leads |}.
Proof.
  intros B.
  exact (manager_leads_with_profile B "E1" Fixture.w0 tt tt
           {["executive_id" := VStr "E1"]} (Some Fixture.three_leads)
           eq_refl eq_refl).
Defined.

(** The manager's view sends the candidate query before it looks at the
    profile: once the profile request has come back, both requests have
    been issued, whether or not a profile was found. *)
Theorem manager_leads_requests {S} (B : Backend S) executive_id (w : world S)
    s1 profile :
  run_single B
    (SelectMaybeSingle "db_executives" [FEq "executive_id" (VStr executive_id)])
    (store w) = (s1, Ok profile) ->
  issued (fst (manager_leads B executive_id w))
  = (issued w
     ++ [SelectMaybeSingle "db_executives" [FEq "executive_id" (VStr executive_id)];
         Select "db_candidates" [FEq "executive_id" (VStr executive_id)]])%list.
Proof.
  intros Hp. unfold manager_leads, Mon.bind, execute_single, execute, Mon.lift.
  rewrite Hp. simpl.
  destruct (run B (Select "db_candidates" _) s1) as [s2 [rows|e]]; simpl.
  - destruct (Py.get_attr_get profile "name" (VStr "")); simpl;
      rewrite <- app_assoc; reflexivity.
  - rewrite <- app_assoc. reflexivity.
Qed.

Lemma manager_leads_requests_witness :
  let B := Fixture.canned (fun _ => Ok (Some Fixture.three_leads)) (fun _ => Ok None) in
  issued (fst (manager_leads B "E404" Fixture.w0))
  = [SelectMaybeSingle "db_executives" [FEq "executive_id" (VStr "E404")];
     Select "db_candidates" [FEq "executive_id" (VStr "E404")]].
Proof.
  intros B.
  exact (manager_leads_requests B "E404" Fixture.w0 tt None eq_refl).
Defined.

(** No read handler swallows or retries a failed request: when the store
    raises, the dashboard, both lead lists and the profile lookup raise the
    same error, having issued that one request. *)
Theorem store_errors_reach_the_caller {S} (B : Backend S) today executive_id
    status heat_min follow_up_due sort payload phone (w : world S) :
  (issued (fst (get_dashboard B today executive_id w))
   = (issued w ++ [dashboard_query executive_id])%list /\
   forall e, snd (run B (dashboard_query executive_id) (store w)) = Raise e ->
             snd (get_dashboard B today executive_id w) = Raise e) /\
  (issued (fst (lead_list_get B today executive_id status heat_min follow_up_due
                  sort w))
   = (issued w
      ++ [lead_list_query today executive_id status heat_min follow_up_due])%list /\
   forall e, snd (run B (lead_list_query today executive_id status heat_min
                           follow_up_due) (store w)) = Raise e ->
             snd (lead_list_get B today executive_id status heat_min
                    follow_up_due sort w) = Raise e) /\
  (issued (fst (lead_list_post B payload w))
   = (issued w ++ [Rpc "get_leads_filtered" (filter_params payload)])%list /\
   forall e, snd (run B (Rpc "get_leads_filtered" (filter_params payload))
                    (store w)) = Raise e ->
             snd (lead_list_post B payload w) = Raise e) /\
  (issued (fst (get_profile B phone w))
   = (issued w ++ [SelectMaybeSingle "db_executives" [FEq "mobile" (VStr phone)]])%list /\
   forall e, snd (run_single B
                    (SelectMaybeSingle "db_executives" [FEq "mobile" (VStr phone)])
                    (store w)) = Raise e ->
             snd (get_profile B phone w) = Raise e).
Proof.
  unfold get_dashboard, lead_list_get, lead_list_post, get_profile, Mon.bind,
    execute, execute_single, Mon.lift, Mon.ret.
  split; [|split; [|split]].
  - destruct (run B _ (store w)) as [s' [r|e]]; simpl; split; try reflexivity;
      intros e' H; congruence.
  - destruct (run B _ (store w)) as [s' [r|e]]; simpl.
    + split; [|intros e' H; discriminate].
      destruct (Py.eq (of_str sort) (VStr "newest")); [|reflexivity].
      destruct (sort_newest (default [] r)); reflexivity.
    + split; [reflexivity|]. intros e' H. congruence.
  - destruct (run B _ (store w)) as [s' [r|e]]; simpl.
    + split; [|intros e' H; discriminate].
      destruct (Py.eq (of_str (sort_by payload)) (VStr "newest")); [|reflexivity].
      destruct (sort_newest (default [] r)); reflexivity.
    + split; [reflexivity|]. intros e' H. congruence.
  - destruct (run_single B _ (store w)) as [s' [r|e]]; simpl.
    + split; [destruct r; reflexivity|]. intros e' H. discriminate.
    + split; [reflexivity|]. intros e' H. congruence.
Qed.

Lemma store_errors_reach_the_caller_witness :
  let B := Fixture.canned (fun _ => Raise (APIError "connection reset"))
             (fun _ => Raise (APIError "connection reset")) in
  snd (get_dashboard B "2024-05-01" "E1" Fixture.w0)
  = Raise (APIError "connection reset").
Proof.
  intros B.
  exact (proj2 (proj1 (store_errors_reach_the_caller B "2024-05-01" "E1" None None
                         None None (FilterPayload_defaults "E1") "999" Fixture.w0))
           (APIError "connection reset") eq_refl).
Defined.
